(** * IFF timetable reader (reader.py): a shallow embedding and its properties

    The Python module reads the line-oriented IFF railway timetable files.
    Every reader class shares one line cursor ([peek] / [next_line]) and one
    field-extraction routine ([parse_row]) driven by a regular expression
    with typed named groups.  This file embeds

    - the Python values the readers build (strings, ints, dates, timedeltas,
      lists and dicts),
    - the fragment of [re] the shipped patterns use, with Python's greedy
      backtracking order,
    - the cursor, the grouped readers, the footnote decoder, the synonym
      dispatcher and the service/timetable reader,

    as executable Rocq functions in a state-and-exception monad over the
    reader object, and proves (or refutes at a concrete input) the
    properties stated about them. *)

From Stdlib Require Import String Ascii List ZArith Lia Bool Arith.
Import ListNotations.

Local Open Scope string_scope.
Local Open Scope list_scope.

(** ** Python strings

    Lines are decoded as ISO-8859-1, so every character is one code point
    below 256 and a Python [str] is modelled by a Rocq [string]. *)

Module Py.

(** [str.isspace] restricted to code points below 256. *)
Definition isspace (c : ascii) : bool :=
  let n := nat_of_ascii c in
  (((9 <=? n) && (n <=? 13)) || ((28 <=? n) && (n <=? 32))
   || (n =? 133) || (n =? 160))%nat.

(** [str.isdecimal] restricted to code points below 256: '0'..'9'. *)
Definition isdigit (c : ascii) : bool :=
  let n := nat_of_ascii c in ((48 <=? n) && (n <=? 57))%nat.

Fixpoint lstrip (s : string) : string :=
  match s with
  | String c s' => if isspace c then lstrip s' else s
  | EmptyString => EmptyString
  end.

Fixpoint rstrip (s : string) : string :=
  match s with
  | String c s' =>
      match rstrip s' with
      | EmptyString => if isspace c then EmptyString else String c EmptyString
      | r => String c r
      end
  | EmptyString => EmptyString
  end.

(** [s.strip()] *)
Definition strip (s : string) : string := rstrip (lstrip s).

(** [s[a:b]] for non-negative [a <= b]; like Python it truncates silently. *)
Definition slice (a b : nat) (s : string) : string := substring a (b - a) s.

(** [s.replace(c, "")] for a one-character [c]. *)
Fixpoint remove_char (c : ascii) (s : string) : string :=
  match s with
  | String x s' =>
      if Ascii.eqb x c then remove_char c s' else String x (remove_char c s')
  | EmptyString => EmptyString
  end.

(** Iterating a string yields its characters. *)
Definition chars (s : string) : list ascii := list_ascii_of_string s.

(** Number of occurrences of a character. *)
Definition count (c : ascii) (s : string) : nat :=
  List.length (filter (Ascii.eqb c) (chars s)).

(** [s.split("_")[-1]] and ["_".join(s.split("_")[:-1])]: the text after and
    before the last underscore.  Without an underscore the whole string is
    the last part and the joined prefix is empty. *)
Fixpoint rsplit_underscore (s : string) : option string * string :=
  match s with
  | EmptyString => (None, EmptyString)
  | String c s' =>
      match rsplit_underscore s' with
      | (Some pre, last) => (Some (String c pre), last)
      | (None, last) =>
          if Ascii.eqb c "_" then (Some EmptyString, last)
          else (None, String c last)
      end
  end.

Definition name_prefix (s : string) : string :=
  match fst (rsplit_underscore s) with Some p => p | None => EmptyString end.

Definition name_suffix (s : string) : string := snd (rsplit_underscore s).

Local Open Scope Z_scope.

Definition digit_value (c : ascii) : Z := Z.of_nat (nat_of_ascii c) - 48.

(** Digits of an [int] literal: decimal digits, single underscores allowed
    between two digits. *)
Fixpoint int_digits (s : string) (acc : Z) (after_digit : bool) : option Z :=
  match s with
  | EmptyString => if after_digit then Some acc else None
  | String c s' =>
      if isdigit c then int_digits s' (acc * 10 + digit_value c) true
      else if Ascii.eqb c "_" && after_digit then int_digits s' acc false
      else None
  end.

(** [int(s)]: surrounding whitespace is ignored, an optional sign is
    accepted; [None] stands for [ValueError]. *)
Definition int (s : string) : option Z :=
  match strip s with
  | String "-" d => option_map Z.opp (int_digits d 0 false)
  | String "+" d => int_digits d 0 false
  | d => int_digits d 0 false
  end.

End Py.

(** ** Dates and durations *)

Module Datetime.

Local Open Scope Z_scope.

(** A [datetime.date] is represented by its proleptic Gregorian ordinal
    ([date.toordinal()]), which is how the library itself adds a
    [timedelta] to a date and which determines the date. *)
Definition date := Z.

Definition min_ordinal : Z := 1.
Definition max_ordinal : Z := 3652059.

Definition is_leap (year : Z) : bool :=
  (year mod 4 =? 0) && (negb (year mod 100 =? 0) || (year mod 400 =? 0)).

Definition days_in_month (year month : Z) : Z :=
  if month =? 2 then (if is_leap year then 29 else 28)
  else if (month =? 4) || (month =? 6) || (month =? 9) || (month =? 11)
       then 30 else 31.

Definition days_before_year (year : Z) : Z :=
  let y := year - 1 in y * 365 + y / 4 - y / 100 + y / 400.

Definition days_before_month (year month : Z) : Z :=
  nth (Z.to_nat month) [0; 0; 31; 59; 90; 120; 151; 181; 212; 243; 273; 304; 334] 0
  + (if (2 <? month) && is_leap year then 1 else 0).

(** [date(year, month, day)]; [None] stands for [ValueError]. *)
Definition mkdate (year month day : Z) : option date :=
  if (1 <=? year) && (year <=? 9999) && (1 <=? month) && (month <=? 12)
     && (1 <=? day) && (day <=? days_in_month year month)
  then Some (days_before_year year + days_before_month year month + day)
  else None.

(** [d + timedelta(days)]; [None] stands for [OverflowError]. *)
Definition add_days (d : date) (days : Z) : option date :=
  let o := d + days in
  if (min_ordinal <=? o) && (o <=? max_ordinal) then Some o else None.

(** A [datetime.timedelta], normalised as Python stores it:
    [0 <= seconds < 86400]; the microseconds are 0 for every duration this
    program builds. *)
Record timedelta := Timedelta { days : Z; seconds : Z }.

(** [timedelta(hours=h, minutes=m)] *)
Definition of_hours_minutes (h m : Z) : timedelta :=
  let total := h * 3600 + m * 60 in
  Timedelta (total / 86400) (total mod 86400).

Definition total_seconds (t : timedelta) : Z := days t * 86400 + seconds t.

Definition total_minutes (t : timedelta) : Z := total_seconds t / 60.

End Datetime.

(** ** Python values, exceptions and outcomes *)

(** The values a record can hold.  A dict is kept as an association list
    in insertion order, as Python keeps it. *)
#[local] Set Warnings "-register-all".
Inductive pyvalue : Type :=
| VStr (s : string)
| VInt (n : Z)
| VDate (d : Datetime.date)
| VDelta (t : Datetime.timedelta)
| VList (l : list pyvalue)
| VDict (d : list (string * pyvalue)).

#[local] Set Warnings "register-all".

Definition dict := list (string * pyvalue).

Definition timedelta_eqb (a b : Datetime.timedelta) : bool :=
  Z.eqb (Datetime.days a) (Datetime.days b)
  && Z.eqb (Datetime.seconds a) (Datetime.seconds b).

(** [a == b].  Two dicts are compared entry by entry in insertion order:
    the dicts this program compares (the stops of a route) have the same
    key set only when the same pattern built them, hence the same order. *)
Fixpoint value_eqb (a b : pyvalue) {struct a} : bool :=
  match a, b with
  | VStr s, VStr t => String.eqb s t
  | VInt n, VInt m => Z.eqb n m
  | VDate d, VDate e => Z.eqb d e
  | VDelta t, VDelta u => timedelta_eqb t u
  | VList l, VList m =>
      (fix go (l m : list pyvalue) {struct l} : bool :=
         match l, m with
         | [], [] => true
         | x :: l', y :: m' => value_eqb x y && go l' m'
         | _, _ => false
         end) l m
  | VDict d, VDict e =>
      (fix go (d e : dict) {struct d} : bool :=
         match d, e with
         | [], [] => true
         | (k, x) :: d', (j, y) :: e' =>
             String.eqb k j && value_eqb x y && go d' e'
         | _, _ => false
         end) d e
  | _, _ => false
  end.

(** [x in l] *)
Definition value_in (x : pyvalue) (l : list pyvalue) : bool :=
  existsb (value_eqb x) l.

(** [d.get(k)] *)
Fixpoint dict_get (k : string) (d : dict) : option pyvalue :=
  match d with
  | [] => None
  | (j, v) :: d' => if String.eqb j k then Some v else dict_get k d'
  end.

(** [d[k] = v]: an existing key keeps its place, a new one goes last. *)
Fixpoint dict_set (k : string) (v : pyvalue) (d : dict) : dict :=
  match d with
  | [] => [(k, v)]
  | (j, w) :: d' =>
      if String.eqb j k then (j, v) :: d' else (j, w) :: dict_set k v d'
  end.

Inductive exn : Type :=
| StopIteration
| IFFReaderException (msg : string)
| IFFReaderRowTypeException (row : string)
| ValueError
| IndexError
| KeyError
| AttributeError
| TypeError
| UnboundLocalError
| OverflowError.

(** What a call does: it returns, raises, or is still running when the
    fuel given to its loops is used up. *)
Inductive outcome (A : Type) : Type :=
| Ok (a : A)
| Raise (e : exn)
| Timeout.

Arguments Ok {A} a.
Arguments Raise {A} e.
Arguments Timeout {A}.

Definition outcome_bind {A B} (o : outcome A) (f : A -> outcome B) : outcome B :=
  match o with
  | Ok a => f a
  | Raise e => Raise e
  | Timeout => Timeout
  end.

(** ** The fragment of [re] used by the patterns *)

Module Re.

(** Character classes: [.], [\d], [\s], one character, a bracket set. *)
Inductive cclass : Type :=
| Any
| Digit
| Space
| Char (c : ascii)
| Union (a b : cclass).

Fixpoint cmatch (k : cclass) (c : ascii) : bool :=
  match k with
  | Any => negb (Ascii.eqb c "010")
  | Digit => Py.isdigit c
  | Space => Py.isspace c
  | Char x => Ascii.eqb c x
  | Union a b => cmatch a c || cmatch b c
  end.

(** [cls{lo,lo+more}], greedy. *)
Record atom := Rep { cls : cclass; lo : nat; more : nat }.

(** A pattern is a sequence of literal characters and named groups; a
    group is an alternation of atom sequences. *)
Inductive item : Type :=
| Lit (c : ascii)
| Group (name : string) (alts : list (list atom)).

Definition regexp := list item.

Section Matcher.
Context {A : Type}.

(** The optional part of a repetition: take as many as possible, give
    back one at a time when the rest of the pattern fails. *)
Fixpoint match_more (k : cclass) (n : nat) (s cap : string)
         (cont : string -> string -> option A) : option A :=
  match n, s with
  | S n', String c s' =>
      if cmatch k c then
        match match_more k n' s' (cap ++ String c "") cont with
        | Some r => Some r
        | None => cont cap s
        end
      else cont cap s
  | _, _ => cont cap s
  end.

Fixpoint match_rep (k : cclass) (lo more : nat) (s cap : string)
         (cont : string -> string -> option A) : option A :=
  match lo with
  | O => match_more k more s cap cont
  | S lo' =>
      match s with
      | String c s' =>
          if cmatch k c then match_rep k lo' more s' (cap ++ String c "") cont
          else None
      | EmptyString => None
      end
  end.

Fixpoint match_atoms (l : list atom) (s cap : string)
         (cont : string -> string -> option A) : option A :=
  match l with
  | [] => cont cap s
  | a :: l' =>
      match_rep (cls a) (lo a) (more a) s cap
                (fun cap' s' => match_atoms l' s' cap' cont)
  end.

Fixpoint match_alts (alts : list (list atom)) (s : string)
         (cont : string -> string -> option A) : option A :=
  match alts with
  | [] => None
  | a :: rest =>
      match match_atoms a s "" cont with
      | Some r => Some r
      | None => match_alts rest s cont
      end
  end.
End Matcher.

(** [re.match(p, s).groupdict()]: the match is anchored at the start of
    [s] only; [None] when there is no match. *)
Fixpoint groupdict (p : regexp) (s : string) (groups : list (string * string))
  : option (list (string * string)) :=
  match p with
  | [] => Some groups
  | Lit c :: p' =>
      match s with
      | String c' s' => if Ascii.eqb c' c then groupdict p' s' groups else None
      | EmptyString => None
      end
  | Group name alts :: p' =>
      match_alts alts s (fun cap s' => groupdict p' s' (groups ++ [(name, cap)]))
  end.

Definition rmatch (p : regexp) (s : string) : option (list (string * string)) :=
  groupdict p s [].

(** Shorthands: [.{n}], [.{a,b}], [\d{n}], [\d{a,b}], one class once. *)
Definition dot (n : nat) : atom := Rep Any n 0.
Definition dots (a b : nat) : atom := Rep Any a (b - a).
Definition dig (n : nat) : atom := Rep Digit n 0.
Definition digs (a b : nat) : atom := Rep Digit a (b - a).
Definition one (k : cclass) : atom := Rep k 1 0.

(** The least number of characters a match of the pattern takes. *)
Definition atoms_min (l : list atom) : nat :=
  fold_right (fun a n => lo a + n) 0 l.

Fixpoint alts_min (alts : list (list atom)) : nat :=
  match alts with
  | [] => 0
  | [a] => atoms_min a
  | a :: rest => Nat.min (atoms_min a) (alts_min rest)
  end.

Fixpoint min_length (p : regexp) : nat :=
  match p with
  | [] => 0
  | Lit _ :: p' => S (min_length p')
  | Group _ alts :: p' => alts_min alts + min_length p'
  end.

End Re.

(** ** The reader object and its monad *)

(** The attributes of a reader instance.  [file] is the line iterator,
    modelled by the lines it has not produced yet; [pushed_back] is the
    Python list, first element first, to which [append] adds at the end and
    from which [pop] takes the last.  An attribute that [__init__] has not
    set is [None]. *)
Record reader := Reader {
  file : list string;
  pushed_back : list string;
  delivery : option dict;
  start_date : option pyvalue;
  end_date : option pyvalue;
  date_range : option (list Datetime.date)
}.

(** Computations on a reader: the object is mutated in place, also by a
    call that ends in an exception. *)
Definition M (A : Type) : Type := reader -> outcome A * reader.

Definition ret {A} (a : A) : M A := fun r => (Ok a, r).

Definition bind {A B} (m : M A) (f : A -> M B) : M B :=
  fun r =>
    match m r with
    | (Ok a, r') => f a r'
    | (Raise e, r') => (Raise e, r')
    | (Timeout, r') => (Timeout, r')
    end.

Definition raise {A} (e : exn) : M A := fun r => (Raise e, r).

Definition timeout {A} : M A := fun r => (Timeout, r).

(** A pure step that may raise. *)
Definition lift {A} (o : outcome A) : M A := fun r => (o, r).

(** [try: m  except StopIteration: ...] seen from the handler's side:
    [None] when [m] raised [StopIteration]. *)
Definition try_stop {A} (m : M A) : M (option A) :=
  fun r =>
    match m r with
    | (Ok a, r') => (Ok (Some a), r')
    | (Raise StopIteration, r') => (Ok None, r')
    | (Raise e, r') => (Raise e, r')
    | (Timeout, r') => (Timeout, r')
    end.

Declare Scope py_scope.
Delimit Scope py_scope with py.
Notation "x <- m ;; k" := (bind m (fun x => k))
  (at level 61, m at next level, right associativity) : py_scope.
Notation "' p <- m ;; k" := (bind m (fun x => match x with p => k end))
  (at level 61, p pattern, m at next level, right associativity) : py_scope.
Local Open Scope py_scope.

(** [s[0]] *)
Definition index0 (s : string) : outcome ascii :=
  match s with
  | String c _ => Ok c
  | EmptyString => Raise IndexError
  end.

(** [d[k].append(x)] *)
Definition list_append (k : string) (x : pyvalue) (d : dict) : outcome dict :=
  match dict_get k d with
  | Some (VList l) => Ok (dict_set k (VList (l ++ [x])) d)
  | Some _ => Raise AttributeError
  | None => Raise KeyError
  end.

(** [d[k]] where a list is expected. *)
Definition getlist (k : string) (d : dict) : outcome (list pyvalue) :=
  match dict_get k d with
  | Some (VList l) => Ok l
  | Some _ => Raise AttributeError
  | None => Raise KeyError
  end.

(** [self._file.__next__()] *)
Definition file_next : M string :=
  fun r =>
    match file r with
    | line :: rest =>
        (Ok line, Reader rest (pushed_back r) (delivery r) (start_date r)
                         (end_date r) (date_range r))
    | [] => (Raise StopIteration, r)
    end.

Definition set_pushed_back (pb : list string) (r : reader) : reader :=
  Reader (file r) pb (delivery r) (start_date r) (end_date r) (date_range r).


(** [l.pop()] on a non-empty list: the last element and the others. *)
Fixpoint pop (l : list string) : option (string * list string) :=
  match l with
  | [] => None
  | x :: l' =>
      match pop l' with
      | None => Some (x, [])
      | Some (y, l'') => Some (y, x :: l'')
      end
  end.

Module IFFReader.

Import Re.

(** REGEXP =
    @(?P<company_number_int>\d{3}),(?P<first_day_date>\d{8}),
    (?P<last_day_date>\d{8}),(?P<version_number_int>\d{4}),
    (?P<description_str>.{30}) *)
Definition REGEXP : regexp :=
  [Lit "@"; Group "company_number_int" [[dig 3]]; Lit ",";
   Group "first_day_date" [[dig 8]]; Lit ",";
   Group "last_day_date" [[dig 8]]; Lit ",";
   Group "version_number_int" [[dig 4]]; Lit ",";
   Group "description_str" [[dot 30]]].

Definition int_or_error (s : string) : outcome Z :=
  match Py.int s with
  | Some n => Ok n
  | None => Raise ValueError
  end.

(** date(int(value[4:8]), int(value[2:4]), int(value[:2])) *)
Definition date (value : string) : outcome pyvalue :=
  outcome_bind (int_or_error (Py.slice 4 8 value)) (fun y =>
  outcome_bind (int_or_error (Py.slice 2 4 value)) (fun m =>
  outcome_bind (int_or_error (Py.slice 0 2 value)) (fun d =>
  match Datetime.mkdate y m d with
  | Some dt => Ok (VDate dt)
  | None => Raise ValueError
  end))).

(** timedelta(hours=int(value[:2]), minutes=int(value[2:4])) *)
Definition time (value : string) : outcome pyvalue :=
  outcome_bind (int_or_error (Py.slice 0 2 value)) (fun h =>
  outcome_bind (int_or_error (Py.slice 2 4 value)) (fun m =>
  Ok (VDelta (Datetime.of_hours_minutes h m)))).

(** The conversion of one matched group, selected by the suffix of its
    name. *)
Definition convert (data_type string_value : string) : outcome pyvalue :=
  if String.eqb data_type "str" || String.eqb data_type "strw" then
    Ok (VStr string_value)
  else if String.eqb data_type "int" || String.eqb data_type "intw" then
    if String.eqb string_value "" then Ok (VInt 0)
    else if String.eqb data_type "intw" && String.eqb string_value "*" then
      Ok (VStr "*")
    else outcome_bind (int_or_error string_value) (fun n => Ok (VInt n))
  else if String.eqb data_type "date" then date string_value
  else if String.eqb data_type "time" then time string_value
  else Raise ValueError.

(** The loop of [parse_row] over the matched groups. *)
Fixpoint convert_groups (groups : list (string * string)) (row_data : dict)
  : outcome dict :=
  match groups with
  | [] => Ok row_data
  | (group_name, text) :: rest =>
      let data_type := Py.name_suffix group_name in
      let parameter_name := Py.name_prefix group_name in
      let string_value := Py.strip text in
      outcome_bind (convert data_type string_value) (fun v =>
      convert_groups rest (dict_set parameter_name v row_data))
  end.

Definition parse_row (row : string) (row_regexp : regexp) : outcome dict :=
  match rmatch row_regexp row with
  | None => Raise (IFFReaderRowTypeException row)
  | Some matched_groups => convert_groups matched_groups []
  end.

(** [__init__(self, file, identification_row_missing)]: the new object, or
    the exception that leaves none. *)
Definition init (f : list string) (identification_row_missing : bool)
  : outcome reader :=
  if identification_row_missing then
    Ok (Reader f [] None None None None)
  else
    match f with
    | [] => Raise (IFFReaderException "Missing identification record in file")
    | identification_row :: rest =>
        outcome_bind (parse_row identification_row REGEXP) (fun dlv =>
        match dict_get "first_day" dlv, dict_get "last_day" dlv with
        | Some sd, Some ed =>
            Ok (Reader rest [] (Some dlv) (Some sd) (Some ed) None)
        | _, _ => Raise KeyError
        end)
    end.

(** def peek(self):
        line = self._file.__next__()
        self.pushed_back.append(line)
        return line *)
Definition peek : M string :=
  line <- file_next ;;
  fun r => (Ok line, set_pushed_back (pushed_back r ++ [line]) r).

(** def next_line(self):
        if self.pushed_back:
            line = self.pushed_back.pop()
            return line
        else:
            return self._file.__next__() *)
Definition next_line : M string :=
  fun r =>
    match pop (pushed_back r) with
    | Some (line, others) => (Ok line, set_pushed_back others r)
    | None => file_next r
    end.

(** def __next__(self):
        row = self.next_line()
        return self.parse_row(row, self.REGEXP) *)
Definition next (regexp_of_class : regexp) : M dict :=
  row <- next_line ;;
  lift (parse_row row regexp_of_class).

End IFFReader.

(** ** Flat readers and the delivery reader *)

Module IFFLanguageReader.
Import Re.

(** (?P<language_code_str>.{4}),(?P<description_str>.{30}) *)
Definition REGEXP : regexp :=
  [Group "language_code_str" [[dot 4]]; Lit ",";
   Group "description_str" [[dot 30]]].

Definition next : M dict := IFFReader.next REGEXP.

End IFFLanguageReader.

Module IFFTransportModeReader.
Import Re.

(** (?P<transport_mode_code_str>.{4}),(?P<description_str>.{30}) *)
Definition REGEXP : regexp :=
  [Group "transport_mode_code_str" [[dot 4]]; Lit ",";
   Group "description_str" [[dot 30]]].

Definition next : M dict := IFFReader.next REGEXP.

End IFFTransportModeReader.

Module IFFDeliveryReader.

(** The reader object with the attribute the subclass adds. *)
Record delivery_reader := DeliveryReader {
  base : reader;
  can_return : bool
}.

(** def __init__(self, file, *args, **kwargs):
        self.can_return = True
        super(IFFDeliveryReader, self).__init__(file, *args, **kwargs) *)
Definition init (f : list string) (identification_row_missing : bool)
  : outcome delivery_reader :=
  outcome_bind (IFFReader.init f identification_row_missing) (fun r =>
  Ok (DeliveryReader r true)).

(** def __next__(self):
        if self.can_return:
            self.can_return = False
            return self.delivery
        else:
            raise StopIteration() *)
Definition next (d : delivery_reader) : outcome dict * delivery_reader :=
  if can_return d then
    match delivery (base d) with
    | Some dl => (Ok dl, DeliveryReader (base d) false)
    | None => (Raise AttributeError, DeliveryReader (base d) false)
    end
  else (Raise StopIteration, d).

End IFFDeliveryReader.

(** ** The grouped (head and tail) readers

    IFFChangesReader, IFFXChangesReader, IFFStationConnectionReader,
    IFFTimeZoneReader, IFFTransportModeQuestionReader and
    IFFTransportAttributeQuestionReader have the same [__next__] up to the
    two patterns, the key of the list and the tail markers:

    def __next__(self):
        row = self.next_line()
        change = self.parse_row(row, self.REGEXP)
        change["changes"] = []

        next_line = self.peek()
        while next_line[0] == "-":
            try:
                row = self.next_line()
                change["changes"] .append(self.parse_row(row, self.CHANGE_REGEXP))
                next_line = self.peek()
            except StopIteration:
                return change

        return change *)

Module Grouped.

(** Whether the first character of a line is one of the given markers. *)
Definition starts_with (markers : ascii -> bool) (line : string) : bool :=
  match line with
  | String c _ => markers c
  | EmptyString => false
  end.

Section Grammar.
Variables (HEAD TAIL : Re.regexp) (key : string) (is_tail : ascii -> bool).

Fixpoint tail_loop (fuel : nat) (record : dict) (next_line : string)
  : M dict :=
  match fuel with
  | O => timeout
  | S fuel' =>
      c <- lift (index0 next_line) ;;
      if is_tail c then
        r <- try_stop IFFReader.next_line ;;
        match r with
        | None => ret record
        | Some row =>
            item <- lift (IFFReader.parse_row row TAIL) ;;
            record' <- lift (list_append key (VDict item) record) ;;
            p <- try_stop IFFReader.peek ;;
            match p with
            | None => ret record'
            | Some next_line' => tail_loop fuel' record' next_line'
            end
        end
      else ret record
  end.

Definition next (fuel : nat) : M dict :=
  row <- IFFReader.next_line ;;
  record <- lift (IFFReader.parse_row row HEAD) ;;
  let record := dict_set key (VList []) record in
  next_line <- IFFReader.peek ;;
  tail_loop fuel record next_line.
End Grammar.

End Grouped.

Module IFFChangesReader.
Import Re.

(** #(?P<station_short_name_str>.{7}) *)
Definition REGEXP : regexp :=
  [Lit "#"; Group "station_short_name_str" [[dot 7]]].

(** \-(?P<from_service_identification_int>\d{8}),
    (?P<to_service_identification_int>\d{8}),
    (?P<possibility_to_change_trains_int>\d{1,2}) *)
Definition CHANGE_REGEXP : regexp :=
  [Lit "-"; Group "from_service_identification_int" [[dig 8]]; Lit ",";
   Group "to_service_identification_int" [[dig 8]]; Lit ",";
   Group "possibility_to_change_trains_int" [[digs 1 2]]].

Definition next : nat -> M dict :=
  Grouped.next REGEXP CHANGE_REGEXP "changes" (fun c => Ascii.eqb c "-").

End IFFChangesReader.

Module IFFStationConnectionReader.
Import Re.

(** >(?P<from_station_short_name_str>.{1,7}),(?P<to_station_short_name_str>.{1,7}) *)
Definition REGEXP : regexp :=
  [Lit ">"; Group "from_station_short_name_str" [[dots 1 7]]; Lit ",";
   Group "to_station_short_name_str" [[dots 1 7]]].

(** \&(?P<x_int>[-\d]\d{5}),(?P<y_int>[-\d]\d{5}) *)
Definition INFLECT_REGEXP : regexp :=
  [Lit "&"; Group "x_int" [[one (Union (Char "-") Digit); dig 5]]; Lit ",";
   Group "y_int" [[one (Union (Char "-") Digit); dig 5]]].

Definition next : nat -> M dict :=
  Grouped.next REGEXP INFLECT_REGEXP "inflections" (fun c => Ascii.eqb c "&").

End IFFStationConnectionReader.

Module IFFTimeZoneReader.
Import Re.

(** #(?P<time_zone_number_int>\d{4}) *)
Definition REGEXP : regexp :=
  [Lit "#"; Group "time_zone_number_int" [[dig 4]]].

(** (?P<time_difference_int>[\-\+]\d{2}),(?P<first_day_date>\d{8}),
    (?P<last_day_date>\d{8}) *)
Definition PERIOD_REGEXP : regexp :=
  [Group "time_difference_int" [[one (Union (Char "-") (Char "+")); dig 2]];
   Lit ","; Group "first_day_date" [[dig 8]]; Lit ",";
   Group "last_day_date" [[dig 8]]].

Definition next : nat -> M dict :=
  Grouped.next REGEXP PERIOD_REGEXP "periods"
               (fun c => Ascii.eqb c "-" || Ascii.eqb c "+").

End IFFTimeZoneReader.

Module IFFTransportModeQuestionReader.
Import Re.

(** #(?P<question_code_str>.{4}),(?P<question_str>.{30}) *)
Definition REGEXP : regexp :=
  [Lit "#"; Group "question_code_str" [[dot 4]]; Lit ",";
   Group "question_str" [[dot 30]]].

(** \-(?P<transport_mode_code_str>.{4}) *)
Definition TRANSPORT_MODE_REGEXP : regexp :=
  [Lit "-"; Group "transport_mode_code_str" [[dot 4]]].

Definition next : nat -> M dict :=
  Grouped.next REGEXP TRANSPORT_MODE_REGEXP "modes" (fun c => Ascii.eqb c "-").

End IFFTransportModeQuestionReader.

Module IFFTransportAttributeQuestionReader.
Import Re.

(** #(?P<question_code_str>.{4}),(?P<question_type_int>[01]),
    (?P<question_str>.{30}) *)
Definition REGEXP : regexp :=
  [Lit "#"; Group "question_code_str" [[dot 4]]; Lit ",";
   Group "question_type_int" [[one (Union (Char "0") (Char "1"))]]; Lit ",";
   Group "question_str" [[dot 30]]].

(** \-(?P<transport_attr_code_str>.{4}) *)
Definition TRANSPORT_ATTRIBUTE_REGEXP : regexp :=
  [Lit "-"; Group "transport_attr_code_str" [[dot 4]]].

Definition next : nat -> M dict :=
  Grouped.next REGEXP TRANSPORT_ATTRIBUTE_REGEXP "attributes"
               (fun c => Ascii.eqb c "-").

End IFFTransportAttributeQuestionReader.

Module IFFXChangesReader.
Import Re.

(** #(?P<station_short_name_str>.{7}) *)
Definition REGEXP : regexp :=
  [Lit "#"; Group "station_short_name_str" [[dot 7]]].

(** \-(?P<from_company_number_intw>\*\s\s|\d{3}),
    (?P<from_transport_mode_strw>.{4}),
    (?P<to_company_number_intw>\*\s\s|\d{3}),
    (?P<to_transport_mode_strw>.{4}),
    (?P<time_to_change_transport_int>\d{3}),(?P<footnote_number_int>\d{5}) *)
Definition XCHANGE_REGEXP : regexp :=
  [Lit "-";
   Group "from_company_number_intw"
         [[one (Char "*"); one Space; one Space]; [dig 3]]; Lit ",";
   Group "from_transport_mode_strw" [[dot 4]]; Lit ",";
   Group "to_company_number_intw"
         [[one (Char "*"); one Space; one Space]; [dig 3]]; Lit ",";
   Group "to_transport_mode_strw" [[dot 4]]; Lit ",";
   Group "time_to_change_transport_int" [[dig 3]]; Lit ",";
   Group "footnote_number_int" [[dig 5]]].

Definition next : nat -> M dict :=
  Grouped.next REGEXP XCHANGE_REGEXP "xchanges" (fun c => Ascii.eqb c "-").

(** What the company pattern captures: the wildcard and two blanks, or
    three digits. *)
Inductive company_text : string -> Prop :=
| company_wildcard (x y : ascii) :
    Py.isspace x = true -> Py.isspace y = true ->
    company_text (String "*" (String x (String y "")))
| company_digits (a b c : ascii) :
    Py.isdigit a = true -> Py.isdigit b = true -> Py.isdigit c = true ->
    company_text (String a (String b (String c ""))).

End IFFXChangesReader.

(** ** The footnote reader *)

Module IFFFootnoteReader.
Import Re.
Local Open Scope Z_scope.

(** #(?P<footnote_number_int>\d{5}) *)
Definition REGEXP : regexp :=
  [Lit "#"; Group "footnote_number_int" [[dig 5]]].

(** DateIterator.__init__: self.start_date + timedelta(-1) *)
Definition date_iterator_init (r : reader) : outcome Datetime.date :=
  match start_date r with
  | Some (VDate d) =>
      match Datetime.add_days d (-1) with
      | Some d' => Ok d'
      | None => Raise OverflowError
      end
  | Some _ => Raise TypeError
  | None => Raise AttributeError
  end.

(** DateIterator.__next__, [None] for StopIteration:
        if dself.loop_date == self.end_date:
            raise StopIteration
        else:
            dself.loop_date = dself.loop_date + timedelta(1)
            return dself.loop_date *)
Definition date_iterator_next (r : reader) (loop_date : Datetime.date)
  : outcome (option Datetime.date) :=
  match end_date r with
  | None => Raise AttributeError
  | Some e =>
      if value_eqb (VDate loop_date) e then Ok None
      else match Datetime.add_days loop_date 1 with
           | Some d => Ok (Some d)
           | None => Raise OverflowError
           end
  end.

(** [d for d in self.date_range_generator()], the iterator being at
    [loop_date]. *)
Fixpoint collect (fuel : nat) (r : reader) (loop_date : Datetime.date)
  : outcome (list Datetime.date) :=
  match fuel with
  | O => Timeout
  | S fuel' =>
      outcome_bind (date_iterator_next r loop_date) (fun n =>
      match n with
      | None => Ok []
      | Some d => outcome_bind (collect fuel' r d) (fun l => Ok (d :: l))
      end)
  end.

(** The iterator stops at [end_date] when that lies ahead and otherwise
    runs into the last representable date; this many steps are enough in
    both cases. *)
Definition steps (r : reader) (loop_date : Datetime.date) : nat :=
  S (Z.to_nat
       (match end_date r with
        | Some (VDate e) =>
            if loop_date <=? e then e - loop_date
            else Datetime.max_ordinal - loop_date
        | _ => Datetime.max_ordinal - loop_date
        end)).

Definition date_range_list (r : reader) : outcome (list Datetime.date) :=
  outcome_bind (date_iterator_init r) (fun d0 => collect (steps r d0) r d0).

Definition set_date_range (l : list Datetime.date) (r : reader) : reader :=
  Reader (file r) (pushed_back r) (delivery r) (start_date r) (end_date r)
         (Some l).

(** def __init__(self, file, *args, **kwargs):
        super(IFFFootnoteReader, self).__init__(file, *args, **kwargs)
        self.date_range = [d for d in self.date_range_generator()] *)
Definition init (f : list string) (identification_row_missing : bool)
  : outcome reader :=
  outcome_bind (IFFReader.init f identification_row_missing) (fun r =>
  outcome_bind (date_range_list r) (fun l => Ok (set_date_range l r))).

Definition get_date_range : M (list Datetime.date) :=
  fun r =>
    match date_range r with
    | Some l => (Ok l, r)
    | None => (Raise AttributeError, r)
    end.

(** [d for (d, v) in date_vector if v == c] *)
Definition select (c : ascii) (date_vector : list (Datetime.date * ascii))
  : list Datetime.date :=
  map fst (filter (fun dv => Ascii.eqb (snd dv) c) date_vector).

(** def __next__(self):
        row = self.next_line()
        footnote = self.parse_row(row, self.REGEXP)
        vector = self.next_line().strip()
        date_vector = [dv for dv in zip(self.date_range, vector)]
        if len(vector.replace("1", "")) > len(vector.replace("0", "")):
            footnote["type"] = "only"
            included = [d for (d, v) in date_vector if v == "1"]
            footnote["included"] = included
        else:
            footnote["type"] = "except"
            excluded = [d for (d,v) in date_vector if v=="0"]
            footnote["excluded"] = excluded
        return footnote *)
Definition next : M dict :=
  row <- IFFReader.next_line ;;
  footnote <- lift (IFFReader.parse_row row REGEXP) ;;
  line <- IFFReader.next_line ;;
  let vector := Py.strip line in
  dates <- get_date_range ;;
  let date_vector := combine dates (Py.chars vector) in
  if (String.length (Py.remove_char "0" vector)
      <? String.length (Py.remove_char "1" vector))%nat
  then
    let footnote := dict_set "type" (VStr "only") footnote in
    let included := select "1" date_vector in
    ret (dict_set "included" (VList (map VDate included)) footnote)
  else
    let footnote := dict_set "type" (VStr "except") footnote in
    let excluded := select "0" date_vector in
    ret (dict_set "excluded" (VList (map VDate excluded)) footnote).

End IFFFootnoteReader.

(** ** The synonym reader *)

Module IFFSynonymReader.
Import Re.

(** Every pattern is one marker, a code of [n] characters, a language code
    of 4 and a description of 30:
    \*(?P<transport_attribute_code_str>.{4}),(?P<language_code_str>.{4}),
    (?P<description_str>.{30})   and so on. *)
Definition synonym_regexp (marker : ascii) (code : string) (n : nat) : regexp :=
  [Lit marker; Group code [[dot n]]; Lit ",";
   Group "language_code_str" [[dot 4]]; Lit ",";
   Group "description_str" [[dot 30]]].

Definition TRANSPORT_ATTRIBUTE_REGEXP := synonym_regexp "*" "transport_attribute_code_str" 4.
Definition TRANSPORT_MODE_REGEXP := synonym_regexp "&" "transport_mode_code_str" 4.
Definition TRANSPORT_ATTRIBUTE_QUESTION_REGEXP := synonym_regexp "$" "transport_attribute_q_code_str" 4.
Definition TRANSPORT_MODE_QUESTION_REGEXP := synonym_regexp "#" "transport_mode_question_code_str" 4.
Definition CONNECTION_MODE_REGEXP := synonym_regexp "%" "connection_mode_code_str" 4.
Definition COUNTRY_REGEXP := synonym_regexp "." "counttry_code_str" 4.
Definition STATION_REGEXP := synonym_regexp "+" "station_short_name_str" 7.
Definition GROUP_REGEXP := synonym_regexp "-" "group_short_name_str" 7.

(** The branches of the chain in [__next__]: marker, discriminant and
    pattern. *)
Definition branches : list (ascii * string * regexp) :=
  [("*"%char, "transport_attribute", TRANSPORT_ATTRIBUTE_REGEXP);
   ("&"%char, "transport_mode", TRANSPORT_MODE_REGEXP);
   ("$"%char, "transport_attribute_question", TRANSPORT_ATTRIBUTE_QUESTION_REGEXP);
   ("#"%char, "transport_mode_question", TRANSPORT_MODE_QUESTION_REGEXP);
   ("%"%char, "connection_mode", CONNECTION_MODE_REGEXP);
   ("+"%char, "station", STATION_REGEXP);
   ("-"%char, "group", GROUP_REGEXP);
   ("."%char, "country", COUNTRY_REGEXP)].

Definition markers : list ascii := map (fun b => fst (fst b)) branches.

(** One branch of the chain: the tag is assigned, then the row parsed. *)
Definition branch (synonym_type : string) (row : string) (p : regexp)
  : M (option string * option dict) :=
  synonym <- lift (IFFReader.parse_row row p) ;;
  ret (Some synonym_type, Some synonym).

(** def __next__(self):
        row = self.next_line()
        synonym_type = None
        if row[0] == "*":
            synonym_type = "transport_attribute"
            synonym = self.parse_row(row, self.TRANSPORT_ATTRIBUTE_REGEXP)
        elif row[0] == "&": ...
        elif row[0] == ".":
            synonym_type = "country"
            synonym = self.parse_row(row, self.COUNTRY_REGEXP)
        synonym["synonym_type"] = synonym_type
        return synonym

    [synonym] is bound in no branch when the chain falls through. *)
Definition next : M dict :=
  row <- IFFReader.next_line ;;
  c <- lift (index0 row) ;;
  ' (synonym_type, synonym) <-
    (if Ascii.eqb c "*" then branch "transport_attribute" row TRANSPORT_ATTRIBUTE_REGEXP
     else if Ascii.eqb c "&" then branch "transport_mode" row TRANSPORT_MODE_REGEXP
     else if Ascii.eqb c "$" then branch "transport_attribute_question" row TRANSPORT_ATTRIBUTE_QUESTION_REGEXP
     else if Ascii.eqb c "#" then branch "transport_mode_question" row TRANSPORT_MODE_QUESTION_REGEXP
     else if Ascii.eqb c "%" then branch "connection_mode" row CONNECTION_MODE_REGEXP
     else if Ascii.eqb c "+" then branch "station" row STATION_REGEXP
     else if Ascii.eqb c "-" then branch "group" row GROUP_REGEXP
     else if Ascii.eqb c "." then branch "country" row COUNTRY_REGEXP
     else ret (None, None)) ;;
  match synonym with
  | None => raise UnboundLocalError
  | Some d =>
      match synonym_type with
      | Some t => ret (dict_set "synonym_type" (VStr t) d)
      | None => ret d
      end
  end.

End IFFSynonymReader.

(** ** The service (timetable) reader *)

Module IFFTimeTablesReader.
Import Re.
Local Open Scope Z_scope.

(** #(?P<service_identification_int>\d{8}) *)
Definition REGEXP : regexp :=
  [Lit "#"; Group "service_identification_int" [[dig 8]]].

(** \*(?P<attribute_code_str>.{4}),(?P<first_stop_int>\d{3}),(?P<last_stop_int>\d{3}) *)
Definition ATTRIBUTE_REGEXP : regexp :=
  [Lit "*"; Group "attribute_code_str" [[dot 4]]; Lit ",";
   Group "first_stop_int" [[dig 3]]; Lit ","; Group "last_stop_int" [[dig 3]]].

(** \%(?P<company_number_int>\d{3}),(?P<service_number_int>\d{5}),
    (?P<variant_str>.{6,7}),(?P<first_stop_int>\d{3}),(?P<last_stop_int>\d{3}),
    (?P<service_name_str>.{30}) *)
Definition NUMBER_REGEXP : regexp :=
  [Lit "%"; Group "company_number_int" [[dig 3]]; Lit ",";
   Group "service_number_int" [[dig 5]]; Lit ",";
   Group "variant_str" [[dots 6 7]]; Lit ",";
   Group "first_stop_int" [[dig 3]]; Lit ","; Group "last_stop_int" [[dig 3]];
   Lit ","; Group "service_name_str" [[dot 30]]].

(** &(?P<transport_mode_code_str>.{4}),(?P<first_stop_int>\d{3}),(?P<last_stop_int>\d{3}) *)
Definition TRANSPORT_MODE_REGEXP : regexp :=
  [Lit "&"; Group "transport_mode_code_str" [[dot 4]]; Lit ",";
   Group "first_stop_int" [[dig 3]]; Lit ","; Group "last_stop_int" [[dig 3]]].

(** \-(?P<footnote_number_int>\d{5}),(?P<first_stop_int>\d{3}),(?P<last_stop_int>\d{3}) *)
Definition VALIDITY_REGEXP : regexp :=
  [Lit "-"; Group "footnote_number_int" [[dig 5]]; Lit ",";
   Group "first_stop_int" [[dig 3]]; Lit ","; Group "last_stop_int" [[dig 3]]].

(** >(?P<station_short_name_str>.{7}),(?P<departure_time_time>\d{4}) *)
Definition START_REGEXP : regexp :=
  [Lit ">"; Group "station_short_name_str" [[dot 7]]; Lit ",";
   Group "departure_time_time" [[dig 4]]].

(** <(?P<station_short_name_str>.{7}),(?P<arrival_time_time>\d{4}) *)
Definition FINAL_REGEXP : regexp :=
  [Lit "<"; Group "station_short_name_str" [[dot 7]]; Lit ",";
   Group "arrival_time_time" [[dig 4]]].

(** \.(?P<station_short_name_str>.{7}),(?P<time_time>\d{4}) *)
Definition CONTINUATION_REGEXP : regexp :=
  [Lit "."; Group "station_short_name_str" [[dot 7]]; Lit ",";
   Group "time_time" [[dig 4]]].

(** ;(?P<station_short_name_str>.{7}) *)
Definition PASSING_REGEXP : regexp :=
  [Lit ";"; Group "station_short_name_str" [[dot 7]]].

(** \+(?P<station_short_name_str>.{7}),(?P<arrival_time_time>\d{4}),
    (?P<departure_time_time>\d{4}) *)
Definition INTERVAL_REGEXP : regexp :=
  [Lit "+"; Group "station_short_name_str" [[dot 7]]; Lit ",";
   Group "arrival_time_time" [[dig 4]]; Lit ",";
   Group "departure_time_time" [[dig 4]]].

(** \?(?P<arr_platform_name_str>.{5}),(?P<dep_platform_name_str>.{5}),
    (?P<footnote_number_int>\d{5}) *)
Definition PLATFORM_REGEXP : regexp :=
  [Lit "?"; Group "arr_platform_name_str" [[dot 5]]; Lit ",";
   Group "dep_platform_name_str" [[dot 5]]; Lit ",";
   Group "footnote_number_int" [[dig 5]]].

(** One of the four leading groups:
        while next_line[0] == "%":
            row = self.next_line()
            service["numbers"].append(self.parse_row(row, self.NUMBER_REGEXP))
            next_line = self.peek() *)
Fixpoint group_loop (fuel : nat) (marker : ascii) (p : regexp) (key : string)
         (service : dict) (next_line : string) : M (dict * string) :=
  match fuel with
  | O => timeout
  | S fuel' =>
      c <- lift (index0 next_line) ;;
      if Ascii.eqb c marker then
        row <- IFFReader.next_line ;;
        item <- lift (IFFReader.parse_row row p) ;;
        service' <- lift (list_append key (VDict item) service) ;;
        next_line' <- IFFReader.peek ;;
        group_loop fuel' marker p key service' next_line'
      else ret (service, next_line)
  end.

(** The local variables of the route part; [stop] is unbound ([None])
    until the first assignment. *)
Record locals := Locals {
  service : dict;
  stop : option dict;
  stop_index : Z;
  last_stop_done : bool;
  next_line : string
}.

Definition set_service (s : dict) (l : locals) : locals :=
  Locals s (stop l) (stop_index l) (last_stop_done l) (next_line l).
Definition set_stop (s : dict) (l : locals) : locals :=
  Locals (service l) (Some s) (stop_index l) (last_stop_done l) (next_line l).
Definition set_next_line (s : string) (l : locals) : locals :=
  Locals (service l) (stop l) (stop_index l) (last_stop_done l) s.

(** except StopIteration:
        # file end: ensure last created stop is included in the service
        if not stop in service["route"]:
            service["route"].append(stop) *)
Definition on_stop_iteration (l : locals) : M locals :=
  match stop l with
  | None => raise UnboundLocalError
  | Some st =>
      route <- lift (getlist "route" (service l)) ;;
      if value_in (VDict st) route then ret l
      else
        service' <- lift (list_append "route" (VDict st) (service l)) ;;
        ret (set_service service' l)
  end.

(** while next_line[0] == ";":
        row = self.next_line()
        stop = self.parse_row(row, self.PASSING_REGEXP)
        next_line = self.peek()
        service["route"].append(stop)
    run inside the try block. *)
Fixpoint passing_loop (fuel : nat) (l : locals) : M locals :=
  match fuel with
  | O => timeout
  | S fuel' =>
      c <- lift (index0 (next_line l)) ;;
      if Ascii.eqb c ";" then
        r <- try_stop IFFReader.next_line ;;
        match r with
        | None => on_stop_iteration l
        | Some row =>
            st <- lift (IFFReader.parse_row row PASSING_REGEXP) ;;
            let l1 := set_stop st l in
            p <- try_stop IFFReader.peek ;;
            match p with
            | None => on_stop_iteration l1
            | Some line =>
                let l2 := set_next_line line l1 in
                service' <- lift (list_append "route" (VDict st) (service l2)) ;;
                passing_loop fuel' (set_service service' l2)
            end
        end
      else ret l
  end.

(** service["route"].append(stop), then the passing stops. *)
Definition append_stop (fuel : nat) (st : dict) (l : locals) : M locals :=
  service' <- lift (list_append "route" (VDict st) (service l)) ;;
  passing_loop fuel (set_service service' l).

(** The stop line itself: the marker of the line peeked before selects the
    pattern; any other marker leaves the empty dict. *)
Definition parse_stop (row : string) (c : ascii) (done : bool)
  : outcome (dict * bool) :=
  if Ascii.eqb c ">" then
    outcome_bind (IFFReader.parse_row row START_REGEXP) (fun s => Ok (s, done))
  else if Ascii.eqb c "+" then
    outcome_bind (IFFReader.parse_row row INTERVAL_REGEXP) (fun s => Ok (s, done))
  else if Ascii.eqb c "." then
    outcome_bind (IFFReader.parse_row row CONTINUATION_REGEXP) (fun s => Ok (s, done))
  else if Ascii.eqb c "<" then
    outcome_bind (IFFReader.parse_row row FINAL_REGEXP) (fun s => Ok (s, true))
  else Ok ([], done).

(** One turn of [while not last_stop_done], the try statement with its
    handler:
        try:
            row = self.next_line()
            stop = {}
            if next_line[0] == ">":
                stop = self.parse_row(row, self.START_REGEXP)
            elif next_line[0] == "+": ...
            elif next_line[0] == ".": ...
            elif next_line[0] == "<":
                stop = self.parse_row(row, self.FINAL_REGEXP)
                last_stop_done = True
            stop_index += 1
            stop["platform"] = []
            stop["stop_index"] = stop_index
            next_line = self.peek()
            if next_line[0] == "?":
                row = self.next_line()
                stop["platform"].append(self.parse_row(row, self.PLATFORM_REGEXP))
                next_line = self.peek()
            service["route"].append(stop)
            while next_line[0] == ";": ...
        except StopIteration: ... *)
Definition route_body (fuel : nat) (l : locals) : M locals :=
  r <- try_stop IFFReader.next_line ;;
  match r with
  | None => on_stop_iteration l
  | Some row =>
      c <- lift (index0 (next_line l)) ;;
      ' (st0, done) <- lift (parse_stop row c (last_stop_done l)) ;;
      let idx := stop_index l + 1 in
      let st := dict_set "stop_index" (VInt idx)
                         (dict_set "platform" (VList []) st0) in
      let l1 := Locals (service l) (Some st) idx done (next_line l) in
      p <- try_stop IFFReader.peek ;;
      match p with
      | None => on_stop_iteration l1
      | Some line =>
          let l2 := set_next_line line l1 in
          c' <- lift (index0 line) ;;
          if Ascii.eqb c' "?" then
            r' <- try_stop IFFReader.next_line ;;
            match r' with
            | None => on_stop_iteration l2
            | Some row' =>
                pf <- lift (IFFReader.parse_row row' PLATFORM_REGEXP) ;;
                st' <- lift (list_append "platform" (VDict pf) st) ;;
                let l3 := set_stop st' l2 in
                p' <- try_stop IFFReader.peek ;;
                match p' with
                | None => on_stop_iteration l3
                | Some line' => append_stop fuel st' (set_next_line line' l3)
                end
            end
          else append_stop fuel st l2
      end
  end.

(** while not last_stop_done: ...
    return service *)
Fixpoint route_loop (fuel inner : nat) (l : locals) : M dict :=
  match fuel with
  | O => timeout
  | S fuel' =>
      if last_stop_done l then ret (service l)
      else
        l' <- route_body inner l ;;
        route_loop fuel' inner l'
  end.

(** def __next__(self): the head line, the four groups in their order,
    then the route. *)
Definition next (fuel : nat) : M dict :=
  row <- IFFReader.next_line ;;
  service0 <- lift (IFFReader.parse_row row REGEXP) ;;
  let service1 := dict_set "numbers" (VList []) service0 in
  line <- IFFReader.peek ;;
  ' (service2, line2) <- group_loop fuel "%" NUMBER_REGEXP "numbers" service1 line ;;
  let service3 := dict_set "validities" (VList []) service2 in
  ' (service4, line4) <- group_loop fuel "-" VALIDITY_REGEXP "validities" service3 line2 ;;
  let service5 := dict_set "transport_modes" (VList []) service4 in
  ' (service6, line6) <- group_loop fuel "&" TRANSPORT_MODE_REGEXP "transport_modes" service5 line4 ;;
  let service7 := dict_set "attributes" (VList []) service6 in
  ' (service8, line8) <- group_loop fuel "*" ATTRIBUTE_REGEXP "attributes" service7 line6 ;;
  let service9 := dict_set "route" (VList []) service8 in
  route_loop fuel fuel (Locals service9 None 0 false line8).

End IFFTimeTablesReader.

(** ** Concrete inputs *)

Module Input.

Definition nl : string := String "010" "".

(** The lines of a file, each with its line end. *)
Definition lines (l : list string) : list string :=
  map (fun s => (s ++ nl)%string) l.

(** An identification record: valid from 1 to 3 January 2020. *)
Definition identification : string :=
  "@100,01012020,03012020,0001,Timetable 2020                ".

(** A reader over the given lines with nothing else set. *)
Definition bare (l : list string) : reader :=
  Reader l [] None None None None.

(** A reader after the identification record has been read. *)
Definition after_identification (l : list string) : reader :=
  match IFFReader.init (lines (identification :: l)) false with
  | Ok r => r
  | _ => bare []
  end.

Definition footnote_reader (l : list string) : reader :=
  match IFFFootnoteReader.init (lines (identification :: l)) false with
  | Ok r => r
  | _ => bare []
  end.

(** A service cut off after its first stop, and the service and stop the
    reader has built when the input ends. *)
Definition truncated_service : reader :=
  bare (lines ["#00000001"; ">aaaaaaa,1000"]).

Definition first_stop : dict :=
  [("station_short_name", VStr "aaaaaaa");
   ("departure_time", VDelta (Datetime.Timedelta 0 36000));
   ("platform", VList []); ("stop_index", VInt 1)].

Definition service_so_far : dict :=
  [("service_identification", VInt 1); ("numbers", VList []);
   ("validities", VList []); ("transport_modes", VList []);
   ("attributes", VList []); ("route", VList [VDict first_stop])].



(** Identification records whose last day lies before the first day:
    by two days, and by one day. *)
Definition reversed_identification : string :=
  "@100,03012020,01012020,0001,Timetable 2020                ".

Definition empty_identification : string :=
  "@100,02012020,01012020,0001,Timetable 2020                ".

(** A service that consists of a final stop, at the end of the input: the
    reader after the head line and the peek, and the service built then. *)
Definition at_final_stop : reader :=
  Reader [] (lines ["<ccccccc,1100"]) None None None None.

Definition service_without_route : dict :=
  [("service_identification", VInt 1); ("numbers", VList []);
   ("validities", VList []); ("transport_modes", VList []);
   ("attributes", VList []); ("route", VList [])].

(** Head lines of the six grouped readers. *)
Definition station_head : string := "#asd    ".
Definition connection_head : string := ">asd,ut".
Definition time_zone_head : string := "#0001".
Definition mode_question_head : string :=
  "#0001,Do you travel by train?       ".
Definition attribute_question_head : string :=
  "#0001,1,Do you need a reservation?    ".

(** A transport attribute synonym: marker, code, language, thirty
    characters of description. *)
Definition synonym_line : string :=
  "*NIIN,EN  ,Intercity direct              ".

End Input.

(** ** Windows of dates, for comparison with the decoder *)

Module Window.
Local Open Scope Z_scope.

(** [n] consecutive days from [d] on. *)
Fixpoint days_from (d : Datetime.date) (n : nat) : list Datetime.date :=
  match n with
  | O => []
  | S n' => d :: days_from (d + 1) n'
  end.

(** The half-open window [start_date, end_date): the last day is left out. *)
Definition half_open (start_date end_date : Datetime.date) : list Datetime.date :=
  days_from start_date (Z.to_nat (end_date - start_date)).

(** The closed window [start_date, end_date]: first and last day included. *)
Definition closed (start_date end_date : Datetime.date) : list Datetime.date :=
  days_from start_date (Z.to_nat (end_date - start_date + 1)).

End Window.

(** ** Position fields along a route *)

Module Route.

(** The position field of a stop, when it has one. *)
Definition position (s : pyvalue) : option pyvalue :=
  match s with
  | VDict d => dict_get "stop_index" d
  | _ => None
  end.

(** The position fields met along a route, in route order. *)
Fixpoint positions (route : list pyvalue) : list pyvalue :=
  match route with
  | [] => []
  | s :: rest =>
      match position s with
      | Some v => v :: positions rest
      | None => positions rest
      end
  end.

(** 1, 2, ..., n *)
Definition one_to (n : nat) : list pyvalue :=
  map (fun i => VInt (Z.of_nat i)) (seq 1 n).

(** A passing stop: the record of a line of the passing pattern. *)
Definition is_passing (s : pyvalue) : Prop :=
  exists row d,
    s = VDict d /\
    IFFReader.parse_row row IFFTimeTablesReader.PASSING_REGEXP = Ok d.


Local Open Scope Z_scope.

(** The route built so far: the halting stops carry 1, 2, ..., [n] in
    order, and a stop without position is a passing stop. *)
Definition ok (route : list pyvalue) (n : Z) : Prop :=
  0 <= n /\
  positions route = one_to (Z.to_nat n) /\
  Forall (fun s => position s = None -> is_passing s) route.

(** What holds between two turns of the loop: the stop at hand, if any,
    is in the route. *)
Definition between_turns (l : IFFTimeTablesReader.locals) : Prop :=
  exists route,
    dict_get "route" (IFFTimeTablesReader.service l) = Some (VList route) /\
    ok route (IFFTimeTablesReader.stop_index l) /\
    match IFFTimeTablesReader.stop l with
    | None => True
    | Some st => In (VDict st) route
    end.

(** What holds when the handler is entered with a stop that may not be in
    the route yet: a new halting stop carrying the next position, or a
    passing stop. *)
Definition at_handler (l : IFFTimeTablesReader.locals) : Prop :=
  exists route st,
    dict_get "route" (IFFTimeTablesReader.service l) = Some (VList route) /\
    IFFTimeTablesReader.stop l = Some st /\
    ((ok route (IFFTimeTablesReader.stop_index l - 1) /\
      0 < IFFTimeTablesReader.stop_index l /\
      position (VDict st) =
      Some (VInt (IFFTimeTablesReader.stop_index l)))
     \/
     (ok route (IFFTimeTablesReader.stop_index l) /\
      is_passing (VDict st))).









Local Close Scope Z_scope.

End Route.

(** * Properties *)

(** ** The monad *)

Lemma bind_Ok {A B} (m : M A) (f : A -> M B) r b r' :
  bind m f r = (Ok b, r') ->
  exists a r1, m r = (Ok a, r1) /\ f a r1 = (Ok b, r').
Proof.
  unfold bind. destruct (m r) as [[a|e|] r1]; intros H; try discriminate H.
  exists a, r1. split; [reflexivity | exact H].
Qed.

Lemma lift_Ok {A} (o : outcome A) r a r' :
  lift o r = (Ok a, r') -> o = Ok a /\ r' = r.
Proof. unfold lift. intros H. inversion H. split; reflexivity. Qed.

Lemma ret_Ok {A} (x : A) r a r' : ret x r = (Ok a, r') -> a = x /\ r' = r.
Proof. unfold ret. intros H. inversion H. split; reflexivity. Qed.

Lemma try_stop_Ok {A} (m : M A) r o r' :
  try_stop m r = (Ok o, r') ->
  match o with
  | Some a => m r = (Ok a, r')
  | None => m r = (Raise StopIteration, r')
  end.
Proof.
  unfold try_stop. destruct (m r) as [[a|e|] r1]; intros H.
  - inversion H; subst. reflexivity.
  - destruct e; inversion H; subst; reflexivity.
  - discriminate H.
Qed.

Lemma outcome_bind_Ok {A B} (o : outcome A) (f : A -> outcome B) b :
  outcome_bind o f = Ok b -> exists a, o = Ok a /\ f a = Ok b.
Proof.
  destruct o as [a|e|]; simpl; intros H; try discriminate H.
  exists a. split; [reflexivity | exact H].
Qed.

(** ** The line cursor *)

Lemma pop_app (l : list string) (x : string) : pop (l ++ [x]) = Some (x, l).
Proof.
  induction l as [|y l IH]; simpl.
  - reflexivity.
  - rewrite IH. reflexivity.
Qed.


(** X1: a peek on an empty buffer followed by [next_line] hands out the peeked
    line and leaves the buffer empty, the source having advanced by exactly
    that line: the way every reader of the module uses the cursor. *)
Lemma peek_then_next_line (r r1 : reader) (x : string) :
  pushed_back r = [] ->
  IFFReader.peek r = (Ok x, r1) ->
  pushed_back r1 = [x] /\
  exists r2, IFFReader.next_line r1 = (Ok x, r2) /\ pushed_back r2 = [] /\
             file r2 = file r1 /\
             file r = x :: file r2.
Proof.
  intros Hpb. unfold IFFReader.peek, bind, file_next.
  destruct r as [f pb dl sd ed dr]; simpl in *. subst pb.
  destruct f as [|l rest]; intros H; inversion H; subst; clear H.
  split; [reflexivity|].
  eexists. unfold IFFReader.next_line. simpl.
  split; [reflexivity|]. split; [reflexivity|]. split; reflexivity.
Qed.

(** Whatever the buffer holds, a peek pulls a fresh line from the source
    and adds it to the buffer. *)
Lemma peek_reads_ahead (r : reader) (x : string) (rest : list string) :
  file r = x :: rest ->
  exists r1, IFFReader.peek r = (Ok x, r1) /\
             file r1 = rest /\
             pushed_back r1 = pushed_back r ++ [x].
Proof.
  intros H. unfold IFFReader.peek, bind, file_next. rewrite H.
  eexists. split; [reflexivity|]. split; reflexivity.
Qed.

(** C3 (the code departs from it): on a source of two lines, two peeks in
    a row return the first and then the second line, the buffer then holds
    both, and [next_line] hands them out in reverse order. *)
Theorem peek_twice_is_not_idempotent :
  exists r1 r2 r3 r4,
    IFFReader.peek (Input.bare ["a"; "b"]) = (Ok "a", r1) /\
    IFFReader.peek r1 = (Ok "b", r2) /\
    pushed_back r2 = ["a"; "b"] /\
    IFFReader.next_line r2 = (Ok "b", r3) /\
    IFFReader.next_line r3 = (Ok "a", r4).
Proof. do 4 eexists. repeat split. Qed.

(** ** Time tokens *)

Lemma isdigit_In (c : ascii) :
  Py.isdigit c = true ->
  In c ["0"; "1"; "2"; "3"; "4"; "5"; "6"; "7"; "8"; "9"]%char.
Proof.
  destruct c as [[] [] [] [] [] [] [] []]; intros H;
    try (cbv in H; discriminate H); simpl; tauto.
Qed.

Lemma int_two_digits (a b : ascii) :
  Py.isdigit a = true -> Py.isdigit b = true ->
  Py.int (String a (String b "")) =
  Some (10 * Py.digit_value a + Py.digit_value b)%Z.
Proof.
  intros Ha Hb. apply isdigit_In in Ha. apply isdigit_In in Hb.
  simpl in Ha, Hb.
  repeat (destruct Ha as [Ha|Ha]; [subst a|]); try contradiction;
    repeat (destruct Hb as [Hb|Hb]; [subst b|]); try contradiction;
    reflexivity.
Qed.

Lemma total_minutes_of_hours_minutes (h m : Z) :
  Datetime.total_minutes (Datetime.of_hours_minutes h m) = (h * 60 + m)%Z.
Proof.
  unfold Datetime.total_minutes, Datetime.total_seconds,
    Datetime.of_hours_minutes; simpl.
  rewrite Z.mul_comm, <- Z.div_mod by lia.
  replace (h * 3600 + m * 60)%Z with ((h * 60 + m) * 60)%Z by lia.
  apply Z.div_mul. lia.
Qed.

(** C8: a token of four digits hhmm is converted to the duration of
    hh*60+mm minutes since midnight, without reduction modulo 24 hours. *)
Theorem time_counts_minutes_since_midnight (h1 h2 m1 m2 : ascii) :
  Py.isdigit h1 = true -> Py.isdigit h2 = true ->
  Py.isdigit m1 = true -> Py.isdigit m2 = true ->
  exists t,
    IFFReader.time (String h1 (String h2 (String m1 (String m2 "")))) =
    Ok (VDelta t) /\
    Datetime.total_minutes t =
    ((10 * Py.digit_value h1 + Py.digit_value h2) * 60
     + (10 * Py.digit_value m1 + Py.digit_value m2))%Z.
Proof.
  intros H1 H2 H3 H4. eexists. split.
  - unfold IFFReader.time, IFFReader.int_or_error, Py.slice. simpl substring.
    rewrite (int_two_digits h1 h2 H1 H2), (int_two_digits m1 m2 H3 H4).
    simpl. reflexivity.
  - apply total_minutes_of_hours_minutes.
Qed.

(** The token "2510" is 25 hours 10 minutes, that is 1510 minutes. *)
Lemma time_2510 :
  exists t, IFFReader.time "2510" = Ok (VDelta t) /\
            Datetime.total_minutes t = (25 * 60 + 10)%Z.
Proof.
  exact (time_counts_minutes_since_midnight "2" "5" "1" "0"
           eq_refl eq_refl eq_refl eq_refl).
Defined.

(** ** The dates of the validity window *)

Section DateRange.
Local Open Scope Z_scope.

Lemma In_days_from (n : nat) (d x : Z) :
  In x (Window.days_from d n) <-> d <= x < d + Z.of_nat n.
Proof.
  revert d. induction n as [|n IH]; intros d; simpl Window.days_from.
  - simpl. lia.
  - simpl In. rewrite IH. lia.
Qed.

Lemma date_iterator_next_date (r : reader) (e d : Z) :
  end_date r = Some (VDate e) ->
  IFFFootnoteReader.date_iterator_next r d =
  if d =? e then Ok None
  else match Datetime.add_days d 1 with
       | Some d' => Ok (Some d')
       | None => Raise OverflowError
       end.
Proof.
  intros He. unfold IFFFootnoteReader.date_iterator_next. rewrite He.
  reflexivity.
Qed.

(** From [loop_date] the iterator yields the days up to and including
    [end_date]. *)
Lemma collect_up_to_end (r : reader) (e : Z) (n : nat) :
  end_date r = Some (VDate e) ->
  e <= Datetime.max_ordinal ->
  forall (fuel : nat) (d : Z),
    0 <= d -> Z.of_nat n = e - d -> (n < fuel)%nat ->
    IFFFootnoteReader.collect fuel r d = Ok (Window.days_from (d + 1) n).
Proof.
  intros He Hmax. induction n as [|n IH]; intros fuel d Hd Hn Hfuel.
  - destruct fuel as [|fuel]; [lia|]. simpl.
    rewrite (date_iterator_next_date r e d He).
    replace (d =? e) with true by (symmetry; apply Z.eqb_eq; lia).
    reflexivity.
  - destruct fuel as [|fuel]; [lia|]. simpl IFFFootnoteReader.collect.
    rewrite (date_iterator_next_date r e d He).
    replace (d =? e) with false by (symmetry; apply Z.eqb_neq; lia).
    unfold Datetime.add_days, Datetime.min_ordinal.
    replace ((1 <=? d + 1) && (d + 1 <=? Datetime.max_ordinal)) with true
      by (symmetry; apply andb_true_intro; split; apply Z.leb_le; lia).
    simpl outcome_bind. rewrite (IH fuel (d + 1)) by lia.
    reflexivity.
Qed.

Lemma collect_S (fuel : nat) (r : reader) (d : Z) :
  IFFFootnoteReader.collect (S fuel) r d =
  outcome_bind (IFFFootnoteReader.date_iterator_next r d) (fun n =>
  match n with
  | None => Ok []
  | Some d' =>
      outcome_bind (IFFFootnoteReader.collect fuel r d') (fun l => Ok (d' :: l))
  end).
Proof. reflexivity. Qed.

Lemma date_iterator_next_Some (r : reader) (d d' : Z) :
  IFFFootnoteReader.date_iterator_next r d = Ok (Some d') ->
  d' = d + 1 /\ d + 1 <= Datetime.max_ordinal.
Proof.
  unfold IFFFootnoteReader.date_iterator_next, Datetime.add_days.
  destruct (end_date r) as [e|]; [|discriminate].
  destruct (value_eqb (VDate d) e); [discriminate|].
  destruct ((Datetime.min_ordinal <=? d + 1)
            && (d + 1 <=? Datetime.max_ordinal)) eqn:Hin; [|discriminate].
  intros H. inversion H. apply andb_prop in Hin. destruct Hin as [_ Hin].
  apply Z.leb_le in Hin. split; [reflexivity | exact Hin].
Qed.

Lemma date_iterator_next_not_Timeout (r : reader) (d : Z) :
  IFFFootnoteReader.date_iterator_next r d <> Timeout.
Proof.
  unfold IFFFootnoteReader.date_iterator_next.
  destruct (end_date r) as [e|]; [|discriminate].
  destruct (value_eqb (VDate d) e); [discriminate|].
  destruct (Datetime.add_days d 1); discriminate.
Qed.

Lemma cons_not_Timeout (o : outcome (list Z)) (d : Z) :
  o <> Timeout -> outcome_bind o (fun l => Ok (d :: l)) <> Timeout.
Proof. destruct o; simpl; intros H; [discriminate | discriminate | exact H]. Qed.

(** The comprehension over the iterator always comes to an end: the fuel
    computed by [steps] is never used up. *)
Lemma collect_ends_by_overflow (r : reader) (n : nat) :
  forall d : Z,
    (Z.to_nat (Datetime.max_ordinal - d) <= n)%nat ->
    IFFFootnoteReader.collect (S n) r d <> Timeout.
Proof.
  induction n as [|n IH]; intros d Hn; rewrite collect_S;
    destruct (IFFFootnoteReader.date_iterator_next r d) as [[d'|]| |] eqn:Hnext;
    simpl outcome_bind; try discriminate;
    try (exfalso; exact (date_iterator_next_not_Timeout r d Hnext));
    apply date_iterator_next_Some in Hnext; destruct Hnext as [-> Hmax].
  - lia.
  - apply cons_not_Timeout, IH. lia.
Qed.

Lemma collect_ends_at_end_date (r : reader) (e : Z) (n : nat) :
  end_date r = Some (VDate e) ->
  forall d : Z,
    d <= e -> (Z.to_nat (e - d) <= n)%nat ->
    IFFFootnoteReader.collect (S n) r d <> Timeout.
Proof.
  intros He. induction n as [|n IH]; intros d Hd Hn; rewrite collect_S;
    destruct (IFFFootnoteReader.date_iterator_next r d) as [[d'|]| |] eqn:Hnext;
    simpl outcome_bind; try discriminate;
    try (exfalso; exact (date_iterator_next_not_Timeout r d Hnext));
    pose proof Hnext as Hnext';
    rewrite (date_iterator_next_date r e d He) in Hnext';
    (destruct (d =? e) eqn:Hde; [discriminate Hnext'|]);
    apply Z.eqb_neq in Hde;
    apply date_iterator_next_Some in Hnext; destruct Hnext as [-> Hmax].
  - lia.
  - apply cons_not_Timeout, IH; lia.
Qed.

Lemma date_range_list_terminates (r : reader) :
  IFFFootnoteReader.date_range_list r <> Timeout.
Proof.
  unfold IFFFootnoteReader.date_range_list.
  destruct (IFFFootnoteReader.date_iterator_init r) as [d0| |] eqn:Hinit;
    cbn [outcome_bind]; try discriminate.
  - unfold IFFFootnoteReader.steps.
    destruct (end_date r) as [[ | |e| | | ]|] eqn:He;
      try (apply collect_ends_by_overflow; apply Nat.le_refl).
    destruct (d0 <=? e) eqn:Hle.
    + apply Z.leb_le in Hle.
      apply (collect_ends_at_end_date r e _ He); [exact Hle | apply Nat.le_refl].
    + apply collect_ends_by_overflow; apply Nat.le_refl.
  - unfold IFFFootnoteReader.date_iterator_init in Hinit.
    destruct (start_date r) as [[ | |d| | | ]|]; try discriminate.
    destruct (Datetime.add_days d (-1)); discriminate.
Qed.

(** C5 (as the code has it): the dates paired with the vector characters
    are start_date, start_date + 1 day, ... up to and including end_date,
    the closed window: end_date, the last day of the identification
    record, is the last of them. *)
Theorem date_range_is_the_closed_window (r : reader) (s e : Z) :
  start_date r = Some (VDate s) ->
  end_date r = Some (VDate e) ->
  Datetime.min_ordinal < s ->
  s <= e ->
  e <= Datetime.max_ordinal ->
  IFFFootnoteReader.date_range_list r = Ok (Window.closed s e) /\
  (forall d, In d (Window.closed s e) <-> s <= d <= e) /\
  In e (Window.closed s e).
Proof.
  intros Hs He Hmin Hse Hmax.
  assert (Hin : forall d, In d (Window.closed s e) <-> s <= d <= e).
  { intros d. unfold Window.closed. rewrite In_days_from. lia. }
  split; [|split; [exact Hin | apply Hin; lia]].
  unfold IFFFootnoteReader.date_range_list, IFFFootnoteReader.date_iterator_init.
  rewrite Hs. unfold Datetime.add_days.
  replace ((Datetime.min_ordinal <=? s + -1)
           && (s + -1 <=? Datetime.max_ordinal)) with true
    by (symmetry; apply andb_true_intro; split; apply Z.leb_le;
        unfold Datetime.min_ordinal in *; lia).
  cbn [outcome_bind]. unfold IFFFootnoteReader.steps. rewrite He.
  replace (s + -1 <=? e) with true by (symmetry; apply Z.leb_le; lia).
  unfold Datetime.min_ordinal in Hmin.
  rewrite (collect_up_to_end r e (Z.to_nat (e - (s + -1))) He Hmax) by lia.
  unfold Window.closed. do 2 f_equal; lia.
Qed.

Lemma date_range_of_january_2020 :
  IFFFootnoteReader.date_range_list (Input.after_identification []) =
  Ok [737425; 737426; 737427] /\
  In 737427 [737425; 737426; 737427].
Proof.
  pose proof (date_range_is_the_closed_window
                (Input.after_identification []) 737425 737427
                eq_refl eq_refl) as H.
  unfold Datetime.min_ordinal, Datetime.max_ordinal in H.
  destruct H as [H _]; [lia | lia | lia |].
  split; [exact H | simpl; tauto].
Defined.

(** C5 (as stated, refuted): for the identification record valid from 1 to
    3 January 2020 the reader pairs the three dates 1, 2 and 3 January:
    this is not the half-open window, and end_date is among them. *)
Lemma date_range_is_not_half_open :
  let r := Input.footnote_reader [] in
  start_date r = Some (VDate 737425) /\
  end_date r = Some (VDate 737427) /\
  date_range r = Some [737425; 737426; 737427] /\
  date_range r <> Some (Window.half_open 737425 737427) /\
  (exists l, date_range r = Some l /\ In 737427 l).
Proof.
  cbv zeta. repeat split.
  - vm_compute. discriminate.
  - exists [737425; 737426; 737427]. split; [reflexivity | simpl; tauto].
Qed.

End DateRange.

(** ** Dicts *)

Lemma dict_get_set_same (k : string) (v : pyvalue) (d : dict) :
  dict_get k (dict_set k v d) = Some v.
Proof.
  induction d as [|[j w] d IH]; simpl.
  - rewrite String.eqb_refl. reflexivity.
  - destruct (String.eqb j k) eqn:Hjk; simpl; rewrite Hjk; [reflexivity | exact IH].
Qed.

Lemma dict_get_set_other (k k' : string) (v : pyvalue) (d : dict) :
  k <> k' -> dict_get k (dict_set k' v d) = dict_get k d.
Proof.
  intros Hk. induction d as [|[j w] d IH]; simpl.
  - destruct (String.eqb k' k) eqn:E; [|reflexivity].
    apply String.eqb_eq in E. congruence.
  - destruct (String.eqb j k') eqn:Hjk'; simpl.
    + apply String.eqb_eq in Hjk'. subst j.
      destruct (String.eqb k' k) eqn:E; [|reflexivity].
      apply String.eqb_eq in E. congruence.
    + destruct (String.eqb j k); [reflexivity | exact IH].
Qed.

(** ** The footnote decoder *)

Lemma next_line_keeps_date_range (r r' : reader) (o : outcome string) :
  IFFReader.next_line r = (o, r') -> date_range r' = date_range r.
Proof.
  unfold IFFReader.next_line, file_next.
  destruct (pop (pushed_back r)) as [[x others]|].
  - intros H. inversion H. reflexivity.
  - destruct (file r); intros H; inversion H; reflexivity.
Qed.

Lemma length_remove_char (c : ascii) (s : string) :
  String.length (Py.remove_char c s) + Py.count c s = String.length s.
Proof.
  unfold Py.count, Py.chars. induction s as [|x s IH]; simpl.
  - reflexivity.
  - rewrite (Ascii.eqb_sym c x). destruct (Ascii.eqb x c); simpl; lia.
Qed.

(** The test of the decoder compares the numbers of ones and zeros. *)
Lemma fewer_ones_test (vector : string) :
  (String.length (Py.remove_char "0" vector)
   <? String.length (Py.remove_char "1" vector))%nat =
  (Py.count "1" vector <? Py.count "0" vector)%nat.
Proof.
  pose proof (length_remove_char "0" vector) as H0.
  pose proof (length_remove_char "1" vector) as H1.
  destruct (Py.count "1" vector <? Py.count "0" vector)%nat eqn:E.
  - apply Nat.ltb_lt in E. apply Nat.ltb_lt. lia.
  - apply Nat.ltb_ge in E. apply Nat.ltb_ge. lia.
Qed.

Lemma In_select (c : ascii) (dates : list Z) (cs : list ascii) (d : Z) :
  In d (IFFFootnoteReader.select c (combine dates cs)) <->
  exists i, nth_error dates i = Some d /\ nth_error cs i = Some c.
Proof.
  unfold IFFFootnoteReader.select.
  revert cs. induction dates as [|d0 dates IH]; intros cs.
  - simpl. split; [contradiction|]. intros [[|i] [H _]]; discriminate H.
  - destruct cs as [|x cs].
    + simpl. split; [contradiction|]. intros [[|i] [_ H]]; discriminate H.
    + simpl combine. simpl filter. simpl snd.
      destruct (Ascii.eqb x c) eqn:Hx.
      * apply Ascii.eqb_eq in Hx. subst x. simpl. rewrite IH. split.
        -- intros [->|[i Hi]]; [exists 0%nat; split; reflexivity|].
           exists (S i). exact Hi.
        -- intros [[|i] [H1 H2]]; simpl in H1, H2.
           ++ left. congruence.
           ++ right. exists i. split; assumption.
      * rewrite IH. split.
        -- intros [i Hi]. exists (S i). exact Hi.
        -- intros [[|i] [H1 H2]]; simpl in H1, H2.
           ++ apply Ascii.eqb_neq in Hx. congruence.
           ++ exists i. split; assumption.
Qed.

(** What [__next__] returns once the two lines of a footnote are there. *)
Lemma footnote_next_eq (r r1 r2 : reader) (row line : string) (fn : dict)
      (dates : list Z) :
  IFFReader.next_line r = (Ok row, r1) ->
  IFFReader.parse_row row IFFFootnoteReader.REGEXP = Ok fn ->
  IFFReader.next_line r1 = (Ok line, r2) ->
  date_range r = Some dates ->
  let vector := Py.strip line in
  let date_vector := combine dates (Py.chars vector) in
  IFFFootnoteReader.next r =
  (Ok (if (Py.count "1" vector <? Py.count "0" vector)%nat
       then dict_set "included"
              (VList (map VDate (IFFFootnoteReader.select "1" date_vector)))
              (dict_set "type" (VStr "only") fn)
       else dict_set "excluded"
              (VList (map VDate (IFFFootnoteReader.select "0" date_vector)))
              (dict_set "type" (VStr "except") fn)),
   r2).
Proof.
  intros Hrow Hfn Hline Hdates vector date_vector.
  assert (Hdr : date_range r2 = Some dates).
  { rewrite (next_line_keeps_date_range r1 r2 _ Hline).
    rewrite (next_line_keeps_date_range r r1 _ Hrow).
    exact Hdates. }
  unfold IFFFootnoteReader.next, bind. rewrite Hrow.
  unfold lift. rewrite Hfn, Hline.
  unfold IFFFootnoteReader.get_date_range. rewrite Hdr.
  fold vector. fold date_vector. rewrite fewer_ones_test.
  destruct (Py.count "1" vector <? Py.count "0" vector)%nat; reflexivity.
Qed.

Lemma combine_up_to_shorter {A B} (l : list A) (l' : list B) :
  let n := Nat.min (List.length l) (List.length l') in
  combine l l' = combine (firstn n l) (firstn n l').
Proof.
  intros n. rewrite <- combine_firstn. unfold n.
  rewrite <- length_combine, firstn_all. reflexivity.
Qed.

Section FootnoteDecoder.
Local Open Scope Z_scope.

(** C6: with fewer ones than zeros the footnote is `only` and records the
    dates whose character is '1'; otherwise, ties included, it is `except`
    and records the dates whose character is '0'. *)
Theorem footnote_classification (r r1 r2 : reader) (row line : string)
        (fn : dict) (dates : list Z) :
  IFFReader.next_line r = (Ok row, r1) ->
  IFFReader.parse_row row IFFFootnoteReader.REGEXP = Ok fn ->
  IFFReader.next_line r1 = (Ok line, r2) ->
  date_range r = Some dates ->
  Forall (fun c => c = "0"%char \/ c = "1"%char) (Py.chars (Py.strip line)) ->
  List.length (Py.chars (Py.strip line)) = List.length dates ->
  exists footnote recorded,
    IFFFootnoteReader.next r = (Ok footnote, r2) /\
    if (Py.count "1" (Py.strip line) <? Py.count "0" (Py.strip line))%nat
    then dict_get "type" footnote = Some (VStr "only") /\
         dict_get "included" footnote = Some (VList (map VDate recorded)) /\
         forall d, In d recorded <->
                   exists i, nth_error dates i = Some d /\
                             nth_error (Py.chars (Py.strip line)) i = Some "1"%char
    else dict_get "type" footnote = Some (VStr "except") /\
         dict_get "excluded" footnote = Some (VList (map VDate recorded)) /\
         forall d, In d recorded <->
                   exists i, nth_error dates i = Some d /\
                             nth_error (Py.chars (Py.strip line)) i = Some "0"%char.
Proof.
  intros Hrow Hfn Hline Hdates _ _.
  pose proof (footnote_next_eq r r1 r2 row line fn dates Hrow Hfn Hline Hdates)
    as Hnext. cbv zeta in Hnext.
  destruct (Py.count "1" (Py.strip line) <? Py.count "0" (Py.strip line))%nat.
  - eexists. exists (IFFFootnoteReader.select "1" (combine dates (Py.chars (Py.strip line)))).
    split; [exact Hnext|]. split; [|split].
    + rewrite dict_get_set_other by discriminate. apply dict_get_set_same.
    + apply dict_get_set_same.
    + intros d. apply In_select.
  - eexists. exists (IFFFootnoteReader.select "0" (combine dates (Py.chars (Py.strip line)))).
    split; [exact Hnext|]. split; [|split].
    + rewrite dict_get_set_other by discriminate. apply dict_get_set_same.
    + apply dict_get_set_same.
    + intros d. apply In_select.
Qed.

(** The vector "011" over the three days of the identification record:
    `except`, with the first day excluded. *)
Lemma footnote_011 :
  exists footnote r2,
    IFFFootnoteReader.next (Input.footnote_reader ["#00001"; "011"]) =
    (Ok footnote, r2) /\
    dict_get "type" footnote = Some (VStr "except") /\
    dict_get "excluded" footnote = Some (VList [VDate 737425]).
Proof.
  destruct (footnote_classification
              (Input.footnote_reader ["#00001"; "011"])
              (Input.footnote_reader ["011"])
              (Input.footnote_reader [])
              ("#00001" ++ Input.nl) ("011" ++ Input.nl)
              [("footnote_number", VInt 1)]
              [737425; 737426; 737427]%Z
              eq_refl eq_refl eq_refl eq_refl)
    as [footnote [recorded [Hnext [Htype _]]]].
  - vm_compute.
    repeat (apply Forall_cons; [first [left; reflexivity | right; reflexivity]|]).
    apply Forall_nil.
  - reflexivity.
  - exists footnote, (Input.footnote_reader []).
    split; [exact Hnext|]. split; [exact Htype|].
    assert (Hrun : IFFFootnoteReader.next
                     (Input.footnote_reader ["#00001"; "011"]) =
                   (Ok [("footnote_number", VInt 1); ("type", VStr "except");
                        ("excluded", VList [VDate 737425])],
                    Input.footnote_reader [])) by reflexivity.
    rewrite Hrun in Hnext. inversion Hnext. reflexivity.
Defined.

(** C7 (as the code has it): the vector "101" has two ones and one zero,
    so over a window of three days it is classified `except` and the
    second day is the one excluded. *)
Theorem footnote_101_is_except (r r1 r2 : reader) (row line : string)
        (fn : dict) (d1 d2 d3 : Z) :
  IFFReader.next_line r = (Ok row, r1) ->
  IFFReader.parse_row row IFFFootnoteReader.REGEXP = Ok fn ->
  IFFReader.next_line r1 = (Ok line, r2) ->
  Py.strip line = "101" ->
  date_range r = Some [d1; d2; d3] ->
  exists footnote,
    IFFFootnoteReader.next r = (Ok footnote, r2) /\
    dict_get "type" footnote = Some (VStr "except") /\
    dict_get "excluded" footnote = Some (VList [VDate d2]).
Proof.
  intros Hrow Hfn Hline Hvec Hdates.
  pose proof (footnote_next_eq r r1 r2 row line fn _ Hrow Hfn Hline Hdates)
    as Hnext. cbv zeta in Hnext. rewrite Hvec in Hnext.
  eexists. split; [exact Hnext|]. split.
  - simpl. rewrite dict_get_set_other by discriminate. apply dict_get_set_same.
  - apply dict_get_set_same.
Qed.

Lemma footnote_101_january :
  exists footnote r2,
    IFFFootnoteReader.next (Input.footnote_reader ["#00001"; "101"]) =
    (Ok footnote, r2) /\
    dict_get "type" footnote = Some (VStr "except") /\
    dict_get "excluded" footnote = Some (VList [VDate 737426]).
Proof.
  destruct (footnote_101_is_except
              (Input.footnote_reader ["#00001"; "101"])
              (Input.footnote_reader ["101"])
              (Input.footnote_reader [])
              ("#00001" ++ Input.nl) ("101" ++ Input.nl)
              [("footnote_number", VInt 1)]
              737425 737426 737427
              eq_refl eq_refl eq_refl eq_refl eq_refl)
    as [footnote H].
  exists footnote, (Input.footnote_reader []). exact H.
Defined.

(** C7 (as stated, refuted): decoding "101" over the three days of January
    does not give `only`, and the first and third day are not recorded as
    included. *)
Lemma footnote_101_is_not_only :
  exists footnote r2,
    IFFFootnoteReader.next (Input.footnote_reader ["#00001"; "101"]) =
    (Ok footnote, r2) /\
    dict_get "type" footnote <> Some (VStr "only") /\
    dict_get "included" footnote <>
    Some (VList [VDate 737425; VDate 737427]).
Proof.
  do 2 eexists. split; [vm_compute; reflexivity|].
  split; vm_compute; discriminate.
Qed.

(** C9: a vector longer or shorter than the window raises nothing; dates
    and characters are paired up to the shorter of the two, and what is
    recorded comes from those pairs only. *)
Theorem footnote_vector_length_mismatch (r r1 r2 : reader) (row line : string)
        (fn : dict) (dates : list Z) :
  IFFReader.next_line r = (Ok row, r1) ->
  IFFReader.parse_row row IFFFootnoteReader.REGEXP = Ok fn ->
  IFFReader.next_line r1 = (Ok line, r2) ->
  date_range r = Some dates ->
  List.length (Py.chars (Py.strip line)) <> List.length dates ->
  let vector := Py.chars (Py.strip line) in
  let n := Nat.min (List.length dates) (List.length vector) in
  exists footnote key c recorded,
    IFFFootnoteReader.next r = (Ok footnote, r2) /\
    ((key = "included" /\ c = "1"%char) \/ (key = "excluded" /\ c = "0"%char)) /\
    dict_get key footnote = Some (VList (map VDate recorded)) /\
    recorded = IFFFootnoteReader.select c (combine (firstn n dates) (firstn n vector)) /\
    forall d, In d recorded <->
              exists i, (i < n)%nat /\ nth_error dates i = Some d /\
                        nth_error vector i = Some c.
Proof.
  intros Hrow Hfn Hline Hdates _ vector n.
  pose proof (footnote_next_eq r r1 r2 row line fn dates Hrow Hfn Hline Hdates)
    as Hnext. cbv zeta in Hnext. fold vector in Hnext.
  assert (Hin : forall c d,
             In d (IFFFootnoteReader.select c (combine dates vector)) <->
             exists i, (i < n)%nat /\ nth_error dates i = Some d /\
                       nth_error vector i = Some c).
  { intros c d. rewrite In_select. split.
    - intros [i [H1 H2]]. exists i. split; [|split; assumption].
      assert (i < List.length dates)%nat
        by (apply nth_error_Some; congruence).
      assert (i < List.length vector)%nat
        by (apply nth_error_Some; congruence).
      unfold n. lia.
    - intros [i [_ H]]. exists i. exact H. }
  destruct (Py.count "1" (Py.strip line) <? Py.count "0" (Py.strip line))%nat.
  - eexists. exists "included", "1"%char. eexists.
    split; [exact Hnext|]. split; [left; split; reflexivity|].
    split; [apply dict_get_set_same|]. split.
    + rewrite (combine_up_to_shorter dates vector). reflexivity.
    + apply Hin.
  - eexists. exists "excluded", "0"%char. eexists.
    split; [exact Hnext|]. split; [right; split; reflexivity|].
    split; [apply dict_get_set_same|]. split.
    + rewrite (combine_up_to_shorter dates vector). reflexivity.
    + apply Hin.
Qed.

(** A vector of five characters over the three days of January: the two
    characters in excess are ignored. *)
Lemma footnote_vector_too_long :
  exists footnote r2,
    IFFFootnoteReader.next (Input.footnote_reader ["#00001"; "10001"]) =
    (Ok footnote, r2) /\
    dict_get "included" footnote = Some (VList [VDate 737425]).
Proof.
  destruct (footnote_vector_length_mismatch
              (Input.footnote_reader ["#00001"; "10001"])
              (Input.footnote_reader ["10001"])
              (Input.footnote_reader [])
              ("#00001" ++ Input.nl) ("10001" ++ Input.nl)
              [("footnote_number", VInt 1)]
              [737425; 737426; 737427]%Z
              eq_refl eq_refl eq_refl eq_refl)
    as [footnote [key [c [recorded [Hnext _]]]]].
  - vm_compute. discriminate.
  - exists footnote, (Input.footnote_reader []). split; [exact Hnext|].
    assert (Hrun : IFFFootnoteReader.next
                     (Input.footnote_reader ["#00001"; "10001"]) =
                   (Ok [("footnote_number", VInt 1); ("type", VStr "only");
                        ("included", VList [VDate 737425])],
                    Input.footnote_reader [])) by reflexivity.
    rewrite Hrun in Hnext. inversion Hnext. reflexivity.
Defined.

End FootnoteDecoder.

(** ** The synonym reader *)

Lemma synonym_next_branch (r r1 : reader) (row : string) (c : ascii)
      (tag : string) (p : Re.regexp) :
  IFFReader.next_line r = (Ok row, r1) ->
  index0 row = Ok c ->
  In (c, tag, p) IFFSynonymReader.branches ->
  IFFSynonymReader.next r =
  match IFFReader.parse_row row p with
  | Ok d => (Ok (dict_set "synonym_type" (VStr tag) d), r1)
  | Raise e => (Raise e, r1)
  | Timeout => (Timeout, r1)
  end.
Proof.
  intros Hrow Hc Hin.
  unfold IFFSynonymReader.next, bind. rewrite Hrow. unfold lift. rewrite Hc.
  simpl in Hin.
  repeat (destruct Hin as [Hin|Hin];
          [inversion Hin; subst; simpl;
           unfold IFFSynonymReader.branch, bind, lift;
           destruct (IFFReader.parse_row row _); reflexivity|]).
  contradiction.
Qed.

Lemma synonym_next_no_branch (r r1 : reader) (row : string) (c : ascii) :
  IFFReader.next_line r = (Ok row, r1) ->
  index0 row = Ok c ->
  ~ In c IFFSynonymReader.markers ->
  IFFSynonymReader.next r = (Raise UnboundLocalError, r1).
Proof.
  intros Hrow Hc Hnot.
  unfold IFFSynonymReader.next, bind. rewrite Hrow. unfold lift. rewrite Hc.
  simpl in Hnot.
  repeat match goal with
         | |- context [Ascii.eqb c ?m] =>
             destruct (Ascii.eqb c m) eqn:?;
             [exfalso; apply Hnot;
              match goal with
              | E : Ascii.eqb c m = true |- _ =>
                  apply Ascii.eqb_eq in E; subst c; tauto
              end|]
         end.
  reflexivity.
Qed.

(** C10 (as the code has it): a line that starts with one of the eight
    markers and matches that marker's pattern yields the record tagged with
    the marker's discriminant; when it does not match the pattern,
    [parse_row] raises; a line that starts with any other character ends
    in an exception, there being no default branch. *)
Theorem synonym_dispatch (r r1 : reader) (row : string) (c : ascii) :
  IFFReader.next_line r = (Ok row, r1) ->
  index0 row = Ok c ->
  (forall tag p,
      In (c, tag, p) IFFSynonymReader.branches ->
      (forall d,
          IFFReader.parse_row row p = Ok d ->
          exists synonym,
            IFFSynonymReader.next r = (Ok synonym, r1) /\
            synonym = dict_set "synonym_type" (VStr tag) d /\
            dict_get "synonym_type" synonym = Some (VStr tag)) /\
      (forall e,
          IFFReader.parse_row row p = Raise e ->
          IFFSynonymReader.next r = (Raise e, r1))) /\
  (~ In c IFFSynonymReader.markers ->
   IFFSynonymReader.next r = (Raise UnboundLocalError, r1)).
Proof.
  intros Hrow Hc. split.
  - intros tag p Hin.
    pose proof (synonym_next_branch r r1 row c tag p Hrow Hc Hin) as Hnext.
    split.
    + intros d Hd. rewrite Hd in Hnext. eexists. split; [exact Hnext|].
      split; [reflexivity | apply dict_get_set_same].
    + intros e He. rewrite He in Hnext. exact Hnext.
  - exact (synonym_next_no_branch r r1 row c Hrow Hc).
Qed.

(** A well-formed transport attribute synonym. *)
Lemma synonym_transport_attribute :
  exists synonym,
    IFFSynonymReader.next
      (Input.bare (Input.lines [Input.synonym_line])) =
    (Ok synonym, Input.bare []) /\
    dict_get "synonym_type" synonym = Some (VStr "transport_attribute").
Proof.
  destruct (synonym_dispatch
              (Input.bare (Input.lines [Input.synonym_line]))
              (Input.bare [])
              (Input.synonym_line ++ Input.nl) "*"
              eq_refl eq_refl) as [H _].
  destruct (H "transport_attribute" IFFSynonymReader.TRANSPORT_ATTRIBUTE_REGEXP
              (or_introl eq_refl)) as [Hok _].
  destruct (Hok [("transport_attribute_code", VStr "NIIN");
                 ("language_code", VStr "EN");
                 ("description", VStr "Intercity direct")] eq_refl)
    as [synonym [Hnext [_ Htag]]].
  exists synonym. split; assumption.
Defined.

(** C10 (as stated, refuted): a line whose first character is the marker
    '*' but which does not have the fields of the pattern is answered by
    an exception, not by a tagged record. *)
Lemma synonym_marker_alone_raises :
  index0 ("*" ++ Input.nl) = Ok "*"%char /\
  In "*"%char IFFSynonymReader.markers /\
  IFFSynonymReader.next (Input.bare (Input.lines ["*"])) =
  (Raise (IFFReaderRowTypeException ("*" ++ Input.nl)), Input.bare []).
Proof.
  split; [reflexivity|]. split; [simpl; tauto | reflexivity].
Qed.

(** ** The grouped readers *)

Lemma peek_at_end (r : reader) :
  file r = [] -> IFFReader.peek r = (Raise StopIteration, r).
Proof.
  intros H. unfold IFFReader.peek, bind, file_next. rewrite H. reflexivity.
Qed.

Lemma next_line_at_end (r : reader) :
  file r = [] -> pushed_back r = [] ->
  IFFReader.next_line r = (Raise StopIteration, r).
Proof.
  intros Hf Hp. unfold IFFReader.next_line, file_next. rewrite Hp, Hf.
  reflexivity.
Qed.

Section GroupedReaders.
Variables (HEAD TAIL : Re.regexp) (key : string) (is_tail : ascii -> bool).

(** The first peek stands outside the try statement: when the head line
    is the last line of the input, StopIteration leaves [__next__] and
    the head record is not returned. *)
Lemma grouped_head_on_last_line (fuel : nat) (r r1 : reader) (row : string)
      (record : dict) :
  IFFReader.next_line r = (Ok row, r1) ->
  IFFReader.parse_row row HEAD = Ok record ->
  file r1 = [] ->
  Grouped.next HEAD TAIL key is_tail fuel r = (Raise StopIteration, r1).
Proof.
  intros Hrow Hrec Hend. unfold Grouped.next, bind. rewrite Hrow.
  unfold lift. rewrite Hrec, (peek_at_end r1 Hend). reflexivity.
Qed.

(** X10: inside the loop the end of the input is caught: the record with the
    tail items read so far is returned. *)
Lemma grouped_tail_cut_off (fuel : nat) (r r1 : reader) (line row : string)
      (c : ascii) (record record' item : dict) :
  index0 line = Ok c -> is_tail c = true ->
  IFFReader.next_line r = (Ok row, r1) ->
  IFFReader.parse_row row TAIL = Ok item ->
  list_append key (VDict item) record = Ok record' ->
  file r1 = [] ->
  Grouped.tail_loop TAIL key is_tail (S fuel) record line r = (Ok record', r1).
Proof.
  intros Hc Htail Hrow Hitem Happ Hend. simpl. unfold bind, lift.
  rewrite Hc, Htail. unfold try_stop. rewrite Hrow, Hitem, Happ.
  rewrite (peek_at_end r1 Hend). reflexivity.
Qed.
End GroupedReaders.

(** C2 (the code departs from it): for each of the six grouped readers, a
    head line that is the last line of the input is parsed and then lost:
    the call ends in StopIteration instead of returning the head record
    with an empty list. *)
Theorem grouped_head_on_last_line_raises (fuel : nat) :
  IFFChangesReader.next fuel (Input.bare (Input.lines [Input.station_head])) =
  (Raise StopIteration, Input.bare []) /\
  IFFXChangesReader.next fuel (Input.bare (Input.lines [Input.station_head])) =
  (Raise StopIteration, Input.bare []) /\
  IFFStationConnectionReader.next fuel
    (Input.bare (Input.lines [Input.connection_head])) =
  (Raise StopIteration, Input.bare []) /\
  IFFTimeZoneReader.next fuel (Input.bare (Input.lines [Input.time_zone_head])) =
  (Raise StopIteration, Input.bare []) /\
  IFFTransportModeQuestionReader.next fuel
    (Input.bare (Input.lines [Input.mode_question_head])) =
  (Raise StopIteration, Input.bare []) /\
  IFFTransportAttributeQuestionReader.next fuel
    (Input.bare (Input.lines [Input.attribute_question_head])) =
  (Raise StopIteration, Input.bare []).
Proof.
  repeat split;
    eapply grouped_head_on_last_line; reflexivity.
Qed.

(** With one change line after the head line the end of the input is met
    inside the loop, and the record is returned. *)
Lemma changes_cut_off_after_one_change (fuel : nat) :
  IFFChangesReader.next (S fuel)
    (Input.bare (Input.lines [Input.station_head; "-00000001,00000002,12"])) =
  (Ok [("station_short_name", VStr "asd");
       ("changes",
        VList [VDict [("from_service_identification", VInt 1);
                      ("to_service_identification", VInt 2);
                      ("possibility_to_change_trains", VInt 12)]])],
   Input.bare []).
Proof. reflexivity. Qed.

(** ** Equality of values *)

Lemma value_eqb_refl : forall v : pyvalue, value_eqb v v = true.
Proof.
  fix IH 1. intros [s|n|d|t|l|d]; simpl.
  - apply String.eqb_refl.
  - apply Z.eqb_refl.
  - apply Z.eqb_refl.
  - unfold timedelta_eqb. rewrite !Z.eqb_refl. reflexivity.
  - induction l as [|x l IHl]; [reflexivity|].
    rewrite (IH x), IHl. reflexivity.
  - induction d as [|[k x] d IHd]; [reflexivity|].
    rewrite String.eqb_refl, (IH x), IHd. reflexivity.
Qed.

Lemma value_eqb_eq : forall a b : pyvalue, value_eqb a b = true -> a = b.
Proof.
  fix IH 1. intros [s|n|d|t|l|d] [s'|n'|d'|t'|l'|d']; simpl; intros H;
    try discriminate H.
  - apply String.eqb_eq in H. congruence.
  - apply Z.eqb_eq in H. congruence.
  - apply Z.eqb_eq in H. congruence.
  - unfold timedelta_eqb in H. apply andb_prop in H. destruct H as [H1 H2].
    apply Z.eqb_eq in H1. apply Z.eqb_eq in H2.
    destruct t, t'; simpl in *. congruence.
  - f_equal. revert l' H.
    induction l as [|x l IHl]; intros [|y l'] H; try discriminate H.
    + reflexivity.
    + apply andb_prop in H. destruct H as [H1 H2].
      rewrite (IH x y H1), (IHl l' H2). reflexivity.
  - f_equal. revert d' H.
    induction d as [|[k x] d IHd]; intros [|[j y] d'] H; try discriminate H.
    + reflexivity.
    + apply andb_prop in H. destruct H as [H H3].
      apply andb_prop in H. destruct H as [H1 H2].
      apply String.eqb_eq in H1.
      rewrite H1, (IH x y H2), (IHd d' H3). reflexivity.
Qed.

Lemma value_in_In (x : pyvalue) (l : list pyvalue) :
  value_in x l = true <-> In x l.
Proof.
  unfold value_in. rewrite existsb_exists. split.
  - intros [y [Hy Heq]]. apply value_eqb_eq in Heq. subst y. exact Hy.
  - intros H. exists x. split; [exact H | apply value_eqb_refl].
Qed.

(** ** The service reader: a route cut off by the end of the input *)

(** Once the input is used up and the stop at hand is in the route, a turn
    of the loop changes nothing: [last_stop_done] stays false and the loop
    goes on for as many turns as it is given. *)
Lemma route_loop_stuck (inner : nat) (l : IFFTimeTablesReader.locals)
      (r : reader) (st : dict) (route : list pyvalue) :
  file r = [] -> pushed_back r = [] ->
  IFFTimeTablesReader.last_stop_done l = false ->
  IFFTimeTablesReader.stop l = Some st ->
  getlist "route" (IFFTimeTablesReader.service l) = Ok route ->
  In (VDict st) route ->
  forall fuel, IFFTimeTablesReader.route_loop fuel inner l r = (Timeout, r).
Proof.
  intros Hf Hp Hdone Hstop Hroute Hin fuel.
  induction fuel as [|fuel IH]; [reflexivity|].
  simpl. rewrite Hdone. unfold bind.
  unfold IFFTimeTablesReader.route_body, bind, try_stop.
  rewrite (next_line_at_end r Hf Hp).
  unfold IFFTimeTablesReader.on_stop_iteration. rewrite Hstop.
  unfold bind, lift. rewrite Hroute.
  apply value_in_In in Hin. rewrite Hin. unfold ret. exact IH.
Qed.

(** C1 (the code departs from it): on a service whose input ends after the
    start stop, the handler appends the stop but leaves [last_stop_done]
    false, so the loop never ends: whatever the number of turns allowed,
    the call has neither returned the service nor raised. *)
Theorem truncated_route_never_returns (fuel : nat) :
  fst (IFFTimeTablesReader.next fuel Input.truncated_service) = Timeout.
Proof.
  destruct fuel as [|fuel]; [reflexivity|].
  assert (Hrun : IFFTimeTablesReader.next (S fuel) Input.truncated_service =
                 IFFTimeTablesReader.route_loop fuel (S fuel)
                   (IFFTimeTablesReader.Locals
                      Input.service_so_far (Some Input.first_stop)
                      1 false (">aaaaaaa,1000" ++ Input.nl))
                   (Input.bare [])) by reflexivity.
  rewrite Hrun.
  rewrite (route_loop_stuck _ _ _ Input.first_stop [VDict Input.first_stop]);
    try reflexivity.
  simpl. tauto.
Qed.

(** ** The pattern matcher: a match runs its continuation *)

Section MatcherLemmas.
Context {A : Type}.

Lemma match_more_Some (k : Re.cclass) (n : nat) :
  forall (s cap : string) (cont : string -> string -> option A) (x : A),
    Re.match_more k n s cap cont = Some x ->
    exists cap' s', cont cap' s' = Some x.
Proof.
  induction n as [|n IH]; intros s cap cont x H; simpl in H.
  - exists cap, s. exact H.
  - destruct s as [|c s]; [exists cap, EmptyString; exact H|].
    destruct (Re.cmatch k c); [|exists cap, (String c s); exact H].
    destruct (Re.match_more k n s (cap ++ String c "") cont) as [y|] eqn:E.
    + inversion H; subst y. exact (IH _ _ _ _ E).
    + exists cap, (String c s). exact H.
Qed.

Lemma match_rep_Some (k : Re.cclass) (lo more : nat) :
  forall (s cap : string) (cont : string -> string -> option A) (x : A),
    Re.match_rep k lo more s cap cont = Some x ->
    exists cap' s', cont cap' s' = Some x.
Proof.
  induction lo as [|lo IH]; intros s cap cont x H; simpl in H.
  - exact (match_more_Some _ _ _ _ _ _ H).
  - destruct s as [|c s]; [discriminate H|].
    destruct (Re.cmatch k c); [|discriminate H].
    exact (IH _ _ _ _ H).
Qed.

Lemma match_atoms_Some (l : list Re.atom) :
  forall (s cap : string) (cont : string -> string -> option A) (x : A),
    Re.match_atoms l s cap cont = Some x ->
    exists cap' s', cont cap' s' = Some x.
Proof.
  induction l as [|a l IH]; intros s cap cont x H; simpl in H.
  - exists cap, s. exact H.
  - apply match_rep_Some in H. destruct H as [cap' [s' H]].
    exact (IH _ _ _ _ H).
Qed.

Lemma match_alts_Some (alts : list (list Re.atom)) :
  forall (s : string) (cont : string -> string -> option A) (x : A),
    Re.match_alts alts s cont = Some x ->
    exists cap' s', cont cap' s' = Some x.
Proof.
  induction alts as [|a alts IH]; intros s cont x H; simpl in H.
  - discriminate H.
  - destruct (Re.match_atoms a s "" cont) as [y|] eqn:E.
    + inversion H; subst y. exact (match_atoms_Some _ _ _ _ _ E).
    + exact (IH _ _ _ H).
Qed.
End MatcherLemmas.

(** A passing line yields the station name and nothing else. *)
Lemma parse_passing (row : string) (d : dict) :
  IFFReader.parse_row row IFFTimeTablesReader.PASSING_REGEXP = Ok d ->
  exists name, d = [("station_short_name", VStr name)].
Proof.
  unfold IFFReader.parse_row, Re.rmatch.
  destruct (Re.groupdict IFFTimeTablesReader.PASSING_REGEXP row [])
    as [groups|] eqn:Hm; [|discriminate].
  unfold IFFTimeTablesReader.PASSING_REGEXP in Hm. cbn [Re.groupdict] in Hm.
  destruct row as [|c row]; [discriminate Hm|].
  destruct (Ascii.eqb c ";"); [|discriminate Hm].
  apply match_alts_Some in Hm. destruct Hm as [cap [s' Hm]].
  inversion Hm; subst groups. intros H.
  exists (Py.strip cap). vm_compute in H |- *.
  inversion H. reflexivity.
Qed.

(** ** The service reader: the position fields of a route *)

Lemma positions_app (a b : list pyvalue) :
  Route.positions (a ++ b) = Route.positions a ++ Route.positions b.
Proof.
  induction a as [|s a IH]; simpl; [reflexivity|].
  destruct (Route.position s); rewrite IH; reflexivity.
Qed.

Lemma one_to_S (n : nat) :
  Route.one_to (S n) = Route.one_to n ++ [VInt (Z.of_nat (S n))].
Proof.
  unfold Route.one_to. rewrite seq_S, map_app. reflexivity.
Qed.

Lemma In_one_to (n : nat) (v : pyvalue) :
  In v (Route.one_to n) -> exists i, v = VInt (Z.of_nat i) /\ (1 <= i <= n)%nat.
Proof.
  unfold Route.one_to. rewrite in_map_iff. intros [i [Hv Hi]].
  apply in_seq in Hi. exists i. split; [congruence | lia].
Qed.

Lemma In_positions (s v : pyvalue) (route : list pyvalue) :
  In s route -> Route.position s = Some v -> In v (Route.positions route).
Proof.
  intros Hin Hpos. induction route as [|x route IH]; [contradiction|].
  simpl. destruct Hin as [->|Hin].
  - rewrite Hpos. left. reflexivity.
  - destruct (Route.position x); [right|]; exact (IH Hin).
Qed.

Lemma passing_has_no_position (s : pyvalue) :
  Route.is_passing s -> Route.position s = None.
Proof.
  intros [row [d [-> Hd]]]. apply parse_passing in Hd.
  destruct Hd as [name ->]. reflexivity.
Qed.

Lemma list_append_Ok (k : string) (x : pyvalue) (d d' : dict) :
  list_append k x d = Ok d' ->
  exists l, dict_get k d = Some (VList l) /\
            d' = dict_set k (VList (l ++ [x])) d /\
            dict_get k d' = Some (VList (l ++ [x])).
Proof.
  unfold list_append.
  destruct (dict_get k d) as [[ | | | |l| ]|]; intros H; inversion H.
  exists l. split; [reflexivity|]. split; [reflexivity|].
  apply dict_get_set_same.
Qed.

Lemma getlist_Ok (k : string) (d : dict) (l : list pyvalue) :
  getlist k d = Ok l <-> dict_get k d = Some (VList l).
Proof.
  unfold getlist.
  destruct (dict_get k d) as [[ | | | |l'| ]|]; split; intros H;
    inversion H; reflexivity.
Qed.

Module T := IFFTimeTablesReader.

Section RouteInvariant.
Local Open Scope Z_scope.

Lemma route_ok_halting (route : list pyvalue) (n : Z) (s : pyvalue) :
  Route.ok route (n - 1) -> 0 < n ->
  Route.position s = Some (VInt n) ->
  Route.ok (route ++ [s]) n.
Proof.
  intros [H0 [Hpos Hall]] Hn Hs. split; [lia|]. split.
  - rewrite positions_app, Hpos. simpl. rewrite Hs.
    replace (Z.to_nat n) with (S (Z.to_nat (n - 1))) by lia.
    rewrite one_to_S. do 3 f_equal. lia.
  - apply Forall_app. split; [exact Hall|].
    constructor; [|constructor]. intros Hnone. congruence.
Qed.

Lemma route_ok_passing (route : list pyvalue) (n : Z) (s : pyvalue) :
  Route.ok route n -> Route.is_passing s -> Route.ok (route ++ [s]) n.
Proof.
  intros [H0 [Hpos Hall]] Hs. split; [exact H0|]. split.
  - rewrite positions_app, Hpos. simpl.
    rewrite (passing_has_no_position s Hs). apply app_nil_r.
  - apply Forall_app. split; [exact Hall|].
    constructor; [|constructor]. intros _. exact Hs.
Qed.

Lemma halting_stop_is_new (route : list pyvalue) (n : Z) (s : pyvalue) :
  Route.ok route (n - 1) -> Route.position s = Some (VInt n) -> ~ In s route.
Proof.
  intros [H0 [Hpos _]] Hs Hin.
  pose proof (In_positions s _ route Hin Hs) as H. rewrite Hpos in H.
  apply In_one_to in H. destruct H as [i [Hi Hrange]].
  inversion Hi. lia.
Qed.

Lemma on_stop_iteration_between_turns (l l' : IFFTimeTablesReader.locals)
      (r r' : reader) :
  Route.between_turns l ->
  IFFTimeTablesReader.on_stop_iteration l r = (Ok l', r') ->
  Route.between_turns l'.
Proof.
  intros [route [Hroute [Hok Hstop]]].
  unfold IFFTimeTablesReader.on_stop_iteration.
  destruct (IFFTimeTablesReader.stop l) as [st|] eqn:Hst; [|discriminate].
  unfold bind, lift. rewrite (proj2 (getlist_Ok _ _ _) Hroute).
  rewrite (proj2 (value_in_In _ _) Hstop). unfold ret. intros H.
  inversion H; subst. exists route. rewrite Hst. auto.
Qed.

Lemma on_stop_iteration_at_handler (l l' : IFFTimeTablesReader.locals)
      (r r' : reader) :
  Route.at_handler l ->
  IFFTimeTablesReader.on_stop_iteration l r = (Ok l', r') ->
  Route.between_turns l'.
Proof.
  intros [route [st [Hroute [Hst Hcases]]]].
  unfold IFFTimeTablesReader.on_stop_iteration. rewrite Hst.
  unfold bind, lift. rewrite (proj2 (getlist_Ok _ _ _) Hroute).
  destruct (value_in (VDict st) route) eqn:Hin.
  - unfold ret. intros H. inversion H; subst. apply value_in_In in Hin.
    destruct Hcases as [[Hok [_ Hpos]]|[Hok _]].
    + exfalso. exact (halting_stop_is_new _ _ _ Hok Hpos Hin).
    + exists route. rewrite Hst. auto.
  - destruct (list_append "route" (VDict st) (IFFTimeTablesReader.service l))
      as [service'| |] eqn:Happ; try discriminate.
    unfold ret. intros H. inversion H; subst.
    apply list_append_Ok in Happ. destruct Happ as [route0 [H0 [_ Hget]]].
    rewrite Hroute in H0. inversion H0; subst route0.
    exists (route ++ [VDict st]). simpl. rewrite Hst.
    split; [exact Hget|]. split.
    + destruct Hcases as [[Hok [Hn Hpos]]|[Hok Hpass]].
      * exact (route_ok_halting _ _ _ Hok Hn Hpos).
      * exact (route_ok_passing _ _ _ Hok Hpass).
    + apply in_or_app. right. left. reflexivity.
Qed.

Lemma passing_loop_between_turns (fuel : nat) :
  forall (l l' : T.locals) (r r' : reader),
    Route.between_turns l ->
    T.passing_loop fuel l r = (Ok l', r') ->
    Route.between_turns l'.
Proof.
  induction fuel as [|fuel IH]; intros l l' r r' Hinv H; [discriminate H|].
  simpl in H.
  apply bind_Ok in H as (c & r0 & Hc & H). apply lift_Ok in Hc as [Hc ->].
  destruct (Ascii.eqb c ";").
  - apply bind_Ok in H as (o & r1 & Hrow & H). apply try_stop_Ok in Hrow.
    destruct o as [row|];
      [|exact (on_stop_iteration_between_turns _ _ _ _ Hinv H)].
    apply bind_Ok in H as (st & r2 & Hst & H). apply lift_Ok in Hst as [Hst ->].
    destruct Hinv as [route [Hroute [Hok Hstop]]].
    assert (Hpass : Route.is_passing (VDict st)) by (exists row, st; auto).
    apply bind_Ok in H as (o & r3 & Hpeek & H). apply try_stop_Ok in Hpeek.
    destruct o as [line|].
    + apply bind_Ok in H as (service' & r4 & Happ & H).
      apply lift_Ok in Happ as [Happ ->].
      apply list_append_Ok in Happ. destruct Happ as [route0 [H0 [_ Hget]]].
      simpl in H0. rewrite Hroute in H0. inversion H0; subst route0.
      apply (IH _ _ _ _) in H; [exact H|].
      exists (route ++ [VDict st]). simpl.
      split; [exact Hget|]. split.
      * exact (route_ok_passing _ _ _ Hok Hpass).
      * apply in_or_app. right. left. reflexivity.
    + apply (on_stop_iteration_at_handler _ _ _ _) in H; [exact H|].
      exists route, st. simpl. split; [exact Hroute|].
      split; [reflexivity|]. right. split; assumption.
  - apply ret_Ok in H as [-> ->]. exact Hinv.
Qed.

Lemma append_stop_between_turns (fuel : nat) (st : dict)
      (l l' : T.locals) (r r' : reader) :
  Route.at_handler l -> T.stop l = Some st ->
  T.append_stop fuel st l r = (Ok l', r') ->
  Route.between_turns l'.
Proof.
  intros [route [st0 [Hroute [Hst0 Hcases]]]] Hst H.
  rewrite Hst in Hst0. inversion Hst0; subst st0.
  unfold T.append_stop in H.
  apply bind_Ok in H as (service' & r1 & Happ & H).
  apply lift_Ok in Happ as [Happ ->].
  apply list_append_Ok in Happ. destruct Happ as [route0 [H0 [_ Hget]]].
  rewrite Hroute in H0. inversion H0; subst route0.
  apply passing_loop_between_turns in H; [exact H|].
  exists (route ++ [VDict st]). simpl. rewrite Hst.
  split; [exact Hget|]. split.
  - destruct Hcases as [[Hok [Hn Hpos]]|[Hok Hpass]].
    + exact (route_ok_halting _ _ _ Hok Hn Hpos).
    + exact (route_ok_passing _ _ _ Hok Hpass).
  - apply in_or_app. right. left. reflexivity.
Qed.

Lemma route_body_between_turns (fuel : nat) (l l' : T.locals)
      (r r' : reader) :
  Route.between_turns l ->
  T.route_body fuel l r = (Ok l', r') ->
  Route.between_turns l'.
Proof.
  intros Hinv H. unfold T.route_body in H.
  apply bind_Ok in H as (o & r1 & Hrow & H). apply try_stop_Ok in Hrow.
  destruct o as [row|];
    [|exact (on_stop_iteration_between_turns _ _ _ _ Hinv H)].
  apply bind_Ok in H as (c & r2 & Hc & H). apply lift_Ok in Hc as [Hc ->].
  apply bind_Ok in H as ([st0 done] & r3 & Hparse & H).
  apply lift_Ok in Hparse as [Hparse ->].
  destruct Hinv as [route [Hroute [Hok _]]].
  set (idx := T.stop_index l + 1) in *.
  set (st := dict_set "stop_index" (VInt idx)
                      (dict_set "platform" (VList []) st0)) in *.
  assert (Hidx : 0 < idx) by (destruct Hok as [H0 _]; unfold idx; lia).
  assert (Hnew : forall st' line,
             dict_get "stop_index" st' = Some (VInt idx) ->
             Route.at_handler (T.Locals (T.service l) (Some st') idx done line)).
  { intros st' line Hpos. exists route, st'. simpl.
    split; [exact Hroute|]. split; [reflexivity|]. left.
    replace (idx - 1) with (T.stop_index l) by (unfold idx; lia).
    auto. }
  assert (Hst : dict_get "stop_index" st = Some (VInt idx))
    by apply dict_get_set_same.
  apply bind_Ok in H as (o & r4 & Hpeek & H). apply try_stop_Ok in Hpeek.
  destruct o as [line|];
    [|exact (on_stop_iteration_at_handler _ _ _ _ (Hnew st _ Hst) H)].
  apply bind_Ok in H as (c' & r5 & Hc' & H). apply lift_Ok in Hc' as [Hc' ->].
  destruct (Ascii.eqb c' "?").
  - apply bind_Ok in H as (o & r6 & Hrow' & H). apply try_stop_Ok in Hrow'.
    destruct o as [row'|];
      [|exact (on_stop_iteration_at_handler _ _ _ _ (Hnew st _ Hst) H)].
    apply bind_Ok in H as (pf & r7 & Hpf & H). apply lift_Ok in Hpf as [Hpf ->].
    apply bind_Ok in H as (st' & r8 & Hst' & H).
    apply lift_Ok in Hst' as [Hst' ->].
    apply list_append_Ok in Hst'. destruct Hst' as [pl [_ [Hst' _]]].
    assert (Hpos' : dict_get "stop_index" st' = Some (VInt idx)).
    { rewrite Hst', dict_get_set_other by discriminate. exact Hst. }
    apply bind_Ok in H as (o & r9 & Hpeek' & H). apply try_stop_Ok in Hpeek'.
    destruct o as [line'|].
    + exact (append_stop_between_turns _ st' _ _ _ _
               (Hnew st' _ Hpos') eq_refl H).
    + exact (on_stop_iteration_at_handler _ _ _ _ (Hnew st' _ Hpos') H).
  - exact (append_stop_between_turns _ st _ _ _ _ (Hnew st _ Hst) eq_refl H).
Qed.

Lemma route_loop_between_turns (inner fuel : nat) :
  forall (l : T.locals) (r r' : reader) (service : dict),
    Route.between_turns l ->
    T.route_loop fuel inner l r = (Ok service, r') ->
    exists route n,
      dict_get "route" service = Some (VList route) /\ Route.ok route n.
Proof.
  induction fuel as [|fuel IH]; intros l r r' service Hinv H;
    [discriminate H|].
  simpl in H. destruct (T.last_stop_done l).
  - apply ret_Ok in H as [-> ->].
    destruct Hinv as [route [Hroute [Hok _]]].
    exists route, (T.stop_index l). auto.
  - apply bind_Ok in H as (l1 & r1 & Hbody & H).
    apply route_body_between_turns in Hbody; [|exact Hinv].
    exact (IH _ _ _ _ Hbody H).
Qed.

End RouteInvariant.

(** The position fields met along a returned route are 1, 2, 3, ... and a
    stop without position field has the shape of a passing record. *)
Lemma positions_are_consecutive (fuel : nat) (r r' : reader)
        (service : dict) :
  IFFTimeTablesReader.next fuel r = (Ok service, r') ->
  exists route n,
    dict_get "route" service = Some (VList route) /\
    Route.positions route = Route.one_to n /\
    Forall (fun s => Route.position s = None -> Route.is_passing s) route /\
    (forall s, Route.is_passing s -> Route.position s = None).
Proof.
  intros H. unfold IFFTimeTablesReader.next in H.
  apply bind_Ok in H as (row & r1 & _ & H).
  apply bind_Ok in H as (service0 & r2 & _ & H).
  apply bind_Ok in H as (line & r3 & _ & H).
  apply bind_Ok in H as ([service2 line2] & r4 & _ & H).
  apply bind_Ok in H as ([service4 line4] & r5 & _ & H).
  apply bind_Ok in H as ([service6 line6] & r6 & _ & H).
  apply bind_Ok in H as ([service8 line8] & r7 & _ & H).
  apply route_loop_between_turns in H.
  - destruct H as [route [n [Hroute [_ [Hpos Hall]]]]].
    exists route, (Z.to_nat n). split; [exact Hroute|].
    split; [exact Hpos|]. split; [exact Hall|].
    exact passing_has_no_position.
  - exists []. simpl. split; [apply dict_get_set_same|].
    split; [|exact I]. split; [lia|]. split; [reflexivity | constructor].
Qed.

(** ** The service reader: where the entries of a route come from *)


Lemma peek_file (r r' : reader) (o : outcome string) :
  IFFReader.peek r = (o, r') ->
  match o with
  | Ok x => file r = x :: file r' /\ pushed_back r' = pushed_back r ++ [x]
  | Raise e => e = StopIteration /\ r' = r /\ file r = []
  | Timeout => False
  end.
Proof.
  unfold IFFReader.peek, bind, file_next.
  destruct (file r) as [|x rest] eqn:Hf; intros H; inversion H; subst; simpl.
  - repeat split.
  - split; reflexivity.
Qed.





Section RouteOrigins.
Local Open Scope Z_scope.














End RouteOrigins.




(** * Further properties of the readers *)

(** ** Strings *)

Lemma append_assoc (a b c : string) : ((a ++ b) ++ c = a ++ (b ++ c))%string.
Proof. induction a as [|x a IH]; simpl; [reflexivity | rewrite IH; reflexivity]. Qed.

Lemma append_nil_r (a : string) : (a ++ "")%string = a.
Proof. induction a as [|x a IH]; simpl; [reflexivity | rewrite IH; reflexivity]. Qed.

Lemma length_append (a b : string) :
  String.length (a ++ b) = String.length a + String.length b.
Proof. induction a as [|x a IH]; simpl; [reflexivity | rewrite IH; reflexivity]. Qed.

(** ** The pattern matcher: what a match has taken *)

Section MatcherInversion.
Context {A : Type}.

(** A successful repetition has taken between [lo] and [lo + more]
    characters of the class and has run the rest of the pattern on what
    follows, with the taken text added to the capture. *)
Lemma match_more_inv (k : Re.cclass) (n : nat) :
  forall (s cap : string) (cont : string -> string -> option A) (x : A),
    Re.match_more k n s cap cont = Some x ->
    exists taken rest,
      s = (taken ++ rest)%string /\
      Forall (fun c => Re.cmatch k c = true) (Py.chars taken) /\
      String.length taken <= n /\
      cont (cap ++ taken)%string rest = Some x.
Proof.
  induction n as [|n IH]; intros s cap cont x H; simpl in H.
  - exists EmptyString, s. rewrite append_nil_r.
    repeat split; [simpl; constructor | simpl; lia | exact H].
  - assert (Hnone : cont cap s = Some x ->
                    exists taken rest,
                      s = (taken ++ rest)%string /\
                      Forall (fun c => Re.cmatch k c = true) (Py.chars taken) /\
                      String.length taken <= S n /\
                      cont (cap ++ taken)%string rest = Some x).
    { intros Hc. exists EmptyString, s. rewrite append_nil_r.
      repeat split; [simpl; constructor | simpl; lia | exact Hc]. }
    destruct s as [|c s]; [exact (Hnone H)|].
    destruct (Re.cmatch k c) eqn:Hk; [|exact (Hnone H)].
    destruct (Re.match_more k n s (cap ++ String c "") cont) as [y|] eqn:E;
      [|exact (Hnone H)].
    inversion H; subst y.
    destruct (IH _ _ _ _ E) as [taken [rest [Hs [Hall [Hlen Hcont]]]]].
    exists (String c taken), rest. subst s. split; [reflexivity|].
    split; [simpl; constructor; assumption|]. split; [simpl; lia|].
    rewrite append_assoc in Hcont. exact Hcont.
Qed.

Lemma match_rep_inv (k : Re.cclass) (lo more : nat) :
  forall (s cap : string) (cont : string -> string -> option A) (x : A),
    Re.match_rep k lo more s cap cont = Some x ->
    exists taken rest,
      s = (taken ++ rest)%string /\
      Forall (fun c => Re.cmatch k c = true) (Py.chars taken) /\
      lo <= String.length taken <= lo + more /\
      cont (cap ++ taken)%string rest = Some x.
Proof.
  induction lo as [|lo IH]; intros s cap cont x H; simpl in H.
  - destruct (match_more_inv _ _ _ _ _ _ H)
      as [taken [rest [Hs [Hall [Hlen Hcont]]]]].
    exists taken, rest. repeat split; try assumption; lia.
  - destruct s as [|c s]; [discriminate H|].
    destruct (Re.cmatch k c) eqn:Hk; [|discriminate H].
    destruct (IH _ _ _ _ H) as [taken [rest [Hs [Hall [Hlen Hcont]]]]].
    exists (String c taken), rest. subst s. split; [reflexivity|].
    split; [simpl; constructor; assumption|]. split; [simpl; lia|].
    rewrite append_assoc in Hcont. exact Hcont.
Qed.

Lemma match_atoms_inv (l : list Re.atom) :
  forall (s cap : string) (cont : string -> string -> option A) (x : A),
    Re.match_atoms l s cap cont = Some x ->
    exists taken rest,
      s = (taken ++ rest)%string /\
      Re.atoms_min l <= String.length taken /\
      cont (cap ++ taken)%string rest = Some x.
Proof.
  induction l as [|a l IH]; intros s cap cont x H; simpl in H.
  - exists EmptyString, s. rewrite append_nil_r.
    repeat split; [simpl; lia | exact H].
  - destruct (match_rep_inv _ _ _ _ _ _ _ H)
      as [t1 [r1 [Hs1 [_ [Hlen1 H1]]]]].
    destruct (IH _ _ _ _ H1) as [t2 [r2 [Hs2 [Hlen2 H2]]]].
    exists (t1 ++ t2)%string, r2. subst s r1.
    split; [symmetry; apply append_assoc|]. split.
    + rewrite length_append. simpl. lia.
    + rewrite <- append_assoc. exact H2.
Qed.

Lemma match_alts_inv (alts : list (list Re.atom)) :
  forall (s : string) (cont : string -> string -> option A) (x : A),
    Re.match_alts alts s cont = Some x ->
    exists taken rest,
      s = (taken ++ rest)%string /\
      Re.alts_min alts <= String.length taken /\
      cont taken rest = Some x.
Proof.
  induction alts as [|a alts IH]; intros s cont x H; [discriminate H|].
  simpl in H.
  assert (Hmin : Re.alts_min (a :: alts) <= Re.atoms_min a /\
                 (alts <> [] -> Re.alts_min (a :: alts) <= Re.alts_min alts)).
  { destruct alts as [|b alts]; simpl; split; try lia. intros Hne.
    contradiction. }
  destruct (Re.match_atoms a s "" cont) as [y|] eqn:E.
  - inversion H; subst y.
    destruct (match_atoms_inv _ _ _ _ _ E) as [taken [rest [Hs [Hlen Hc]]]].
    exists taken, rest. simpl in Hc. repeat split; try assumption. lia.
  - destruct alts as [|b alts]; [discriminate H|].
    destruct (IH _ _ _ H) as [taken [rest [Hs [Hlen Hc]]]].
    exists taken, rest. repeat split; try assumption.
    destruct Hmin as [_ Hmin]. specialize (Hmin ltac:(discriminate)). lia.
Qed.

End MatcherInversion.

Lemma groupdict_min_length (p : Re.regexp) :
  forall (s : string) (groups g : list (string * string)),
    Re.groupdict p s groups = Some g -> Re.min_length p <= String.length s.
Proof.
  induction p as [|[c|name alts] p IH]; intros s groups g H; simpl in H.
  - simpl. lia.
  - destruct s as [|c' s]; [discriminate H|].
    destruct (Ascii.eqb c' c); [|discriminate H].
    apply IH in H. simpl. lia.
  - destruct (match_alts_inv _ _ _ _ H) as [taken [rest [Hs [Hlen Hc]]]].
    apply IH in Hc. subst s. rewrite length_append. simpl. lia.
Qed.

(** X2: a row shorter than the fixed width of its pattern is
    answered by IFFReaderRowTypeException carrying the row, whatever the
    pattern. *)
Theorem parse_row_rejects_short_rows (row : string) (p : Re.regexp) :
  String.length row < Re.min_length p ->
  IFFReader.parse_row row p = Raise (IFFReaderRowTypeException row).
Proof.
  intros Hshort. unfold IFFReader.parse_row, Re.rmatch.
  destruct (Re.groupdict p row []) as [g|] eqn:E; [|reflexivity].
  apply groupdict_min_length in E. lia.
Qed.

Lemma start_stop_without_time_is_rejected :
  IFFReader.parse_row ">asd    " IFFTimeTablesReader.START_REGEXP =
  Raise (IFFReaderRowTypeException ">asd    ").
Proof.
  apply parse_row_rejects_short_rows. vm_compute. lia.
Defined.

(** ** Construction of a reader *)

Lemma date_Ok (v : string) (x : pyvalue) :
  IFFReader.date v = Ok x -> exists d, x = VDate d.
Proof.
  unfold IFFReader.date. intros H.
  apply outcome_bind_Ok in H as (y & _ & H).
  apply outcome_bind_Ok in H as (m & _ & H).
  apply outcome_bind_Ok in H as (d & _ & H).
  destruct (Datetime.mkdate y m d) as [dt|]; inversion H. exists dt. reflexivity.
Qed.

(** The groups of a matched identification record. *)
Lemma identification_groups (row : string) (g : list (string * string)) :
  Re.rmatch IFFReader.REGEXP row = Some g ->
  exists c1 c2 c3 c4 c5,
    g = [("company_number_int", c1); ("first_day_date", c2);
         ("last_day_date", c3); ("version_number_int", c4);
         ("description_str", c5)].
Proof.
  unfold Re.rmatch, IFFReader.REGEXP. intros H. cbn [Re.groupdict] in H.
  destruct row as [|c row]; [discriminate H|].
  destruct (Ascii.eqb c "@"); [|discriminate H].
  apply match_alts_Some in H as (c1 & s1 & H).
  destruct s1 as [|x s1]; [discriminate H|].
  destruct (Ascii.eqb x ","); [|discriminate H].
  apply match_alts_Some in H as (c2 & s2 & H).
  destruct s2 as [|y s2]; [discriminate H|].
  destruct (Ascii.eqb y ","); [|discriminate H].
  apply match_alts_Some in H as (c3 & s3 & H).
  destruct s3 as [|z s3]; [discriminate H|].
  destruct (Ascii.eqb z ","); [|discriminate H].
  apply match_alts_Some in H as (c4 & s4 & H).
  destruct s4 as [|w s4]; [discriminate H|].
  destruct (Ascii.eqb w ","); [|discriminate H].
  apply match_alts_Some in H as (c5 & s5 & H).
  inversion H. exists c1, c2, c3, c4, c5. reflexivity.
Qed.

Lemma init_Ok (f : list string) (r : reader) :
  IFFReader.init f false = Ok r ->
  exists row dlv s e,
    f = row :: file r /\
    pushed_back r = [] /\
    IFFReader.parse_row row IFFReader.REGEXP = Ok dlv /\
    delivery r = Some dlv /\
    start_date r = Some (VDate s) /\
    end_date r = Some (VDate e) /\
    dict_get "first_day" dlv = Some (VDate s) /\
    dict_get "last_day" dlv = Some (VDate e).
Proof.
  intros H. unfold IFFReader.init in H.
  destruct f as [|row rest]; [discriminate H|].
  apply outcome_bind_Ok in H as (dlv & Hdlv & H).
  pose proof Hdlv as Hparse. unfold IFFReader.parse_row in Hdlv.
  destruct (Re.rmatch IFFReader.REGEXP row) as [g|] eqn:Hg; [|discriminate Hdlv].
  apply identification_groups in Hg as (c1 & c2 & c3 & c4 & c5 & ->).
  cbn [IFFReader.convert_groups] in Hdlv.
  apply outcome_bind_Ok in Hdlv as (v1 & _ & Hdlv).
  apply outcome_bind_Ok in Hdlv as (v2 & Hv2 & Hdlv).
  apply outcome_bind_Ok in Hdlv as (v3 & Hv3 & Hdlv).
  apply outcome_bind_Ok in Hdlv as (v4 & _ & Hdlv).
  apply outcome_bind_Ok in Hdlv as (v5 & _ & Hdlv).
  vm_compute in Hv2. vm_compute in Hv3.
  change (IFFReader.date (Py.strip c2) = Ok v2) in Hv2.
  change (IFFReader.date (Py.strip c3) = Ok v3) in Hv3.
  apply date_Ok in Hv2 as (s & ->). apply date_Ok in Hv3 as (e & ->).
  vm_compute in Hdlv. inversion Hdlv; subst dlv. clear Hdlv.
  simpl in H. inversion H; subst r. clear H.
  exists row. eexists. exists s, e. simpl.
  repeat split; try reflexivity. exact Hparse.
Qed.

(** X3: without an identification record the constructor raises
    IFFReaderException; when it succeeds it has consumed exactly the first
    line, the buffer is empty, and start_date and end_date are the
    calendar dates stored as first_day and last_day of the delivery
    record. *)
Theorem init_reads_the_identification_record (f : list string) :
  (f = [] ->
   IFFReader.init f false =
   Raise (IFFReaderException "Missing identification record in file")) /\
  (forall r,
      IFFReader.init f false = Ok r ->
      exists row dlv s e,
        f = row :: file r /\
        pushed_back r = [] /\
        IFFReader.parse_row row IFFReader.REGEXP = Ok dlv /\
        delivery r = Some dlv /\
        start_date r = Some (VDate s) /\
        end_date r = Some (VDate e) /\
        dict_get "first_day" dlv = Some (VDate s) /\
        dict_get "last_day" dlv = Some (VDate e)).
Proof.
  split; [intros ->; reflexivity | exact (init_Ok f)].
Qed.

Lemma init_january_2020 :
  exists r,
    IFFReader.init (Input.lines [Input.identification; "#00001"]) false = Ok r /\
    file r = Input.lines ["#00001"] /\
    start_date r = Some (VDate 737425%Z) /\
    end_date r = Some (VDate 737427%Z).
Proof.
  destruct (proj2 (init_reads_the_identification_record
                     (Input.lines [Input.identification; "#00001"]))
                  (Input.after_identification ["#00001"]) eq_refl)
    as (row & dlv & s & e & Hf & _).
  exists (Input.after_identification ["#00001"]).
  inversion Hf. repeat split.
Defined.

(** ** The delivery reader *)

(** X4: after a successful construction the first
    [__next__] returns the identification record, consuming no line, and
    every later call raises StopIteration and changes nothing. *)
Theorem delivery_is_returned_once (f : list string)
        (d : IFFDeliveryReader.delivery_reader) :
  IFFDeliveryReader.init f false = Ok d ->
  exists dlv d1,
    IFFDeliveryReader.next d = (Ok dlv, d1) /\
    delivery (IFFDeliveryReader.base d) = Some dlv /\
    IFFDeliveryReader.base d1 = IFFDeliveryReader.base d /\
    IFFDeliveryReader.next d1 = (Raise StopIteration, d1).
Proof.
  intros H. unfold IFFDeliveryReader.init in H.
  apply outcome_bind_Ok in H as (r & Hr & H). inversion H; subst d. clear H.
  apply init_Ok in Hr as (row & dlv & s & e & _ & _ & _ & Hdlv & _).
  exists dlv, (IFFDeliveryReader.DeliveryReader r false).
  unfold IFFDeliveryReader.next. simpl. rewrite Hdlv. repeat split.
Qed.

Lemma delivery_of_january_2020 :
  exists dlv d1,
    outcome_bind
      (IFFDeliveryReader.init (Input.lines [Input.identification]) false)
      (fun d => Ok (IFFDeliveryReader.next d)) = Ok (Ok dlv, d1) /\
    dict_get "version_number" dlv = Some (VInt 1%Z) /\
    IFFDeliveryReader.next d1 = (Raise StopIteration, d1).
Proof.
  destruct (delivery_is_returned_once
              (Input.lines [Input.identification])
              (IFFDeliveryReader.DeliveryReader (Input.after_identification []) true)
              eq_refl) as (dlv & d1 & Hnext & _ & _ & Hstop).
  exists dlv, d1. split; [|split; [|exact Hstop]].
  - change (Ok (IFFDeliveryReader.next
                  (IFFDeliveryReader.DeliveryReader
                     (Input.after_identification []) true)) = Ok (Ok dlv, d1)).
    rewrite Hnext. reflexivity.
  - vm_compute in Hnext. inversion Hnext. reflexivity.
Defined.

(** ** Construction of the footnote reader *)

(** X5: with
    identification_row_missing the base constructor sets no start_date,
    and the footnote reader's own constructor, which needs it for the
    date range, ends in AttributeError whatever the file holds. *)
Theorem footnote_reader_needs_the_identification_record (f : list string) :
  IFFFootnoteReader.init f true = Raise AttributeError.
Proof. reflexivity. Qed.

Section DateRangeEdges.
Local Open Scope Z_scope.

Lemma collect_past_end_date (r : reader) (e : Z) (n : nat) :
  end_date r = Some (VDate e) ->
  forall d : Z,
    e < d -> (Z.to_nat (Datetime.max_ordinal - d) <= n)%nat ->
    IFFFootnoteReader.collect (S n) r d = Raise OverflowError.
Proof.
  intros He. induction n as [|n IH]; intros d Hd Hn; rewrite collect_S;
    rewrite (date_iterator_next_date r e d He);
    replace (d =? e) with false by (symmetry; apply Z.eqb_neq; lia);
    unfold Datetime.add_days;
    destruct ((Datetime.min_ordinal <=? d + 1)
              && (d + 1 <=? Datetime.max_ordinal)) eqn:Hin;
    try reflexivity;
    apply andb_prop in Hin; destruct Hin as [_ Hin]; apply Z.leb_le in Hin.
  - lia.
  - cbn [outcome_bind]. rewrite IH by lia. reflexivity.
Qed.

(** X6: when end_date lies more than one day before
    start_date the iterator never meets it; the construction of the date
    range ends in OverflowError. *)
Theorem date_range_of_a_reversed_window (r : reader) (s e : Z) :
  start_date r = Some (VDate s) ->
  end_date r = Some (VDate e) ->
  e < s - 1 ->
  IFFFootnoteReader.date_range_list r = Raise OverflowError.
Proof.
  intros Hs He Hlt.
  unfold IFFFootnoteReader.date_range_list, IFFFootnoteReader.date_iterator_init.
  rewrite Hs. destruct (Datetime.add_days s (-1)) as [d0|] eqn:Hadd;
    [|reflexivity].
  unfold Datetime.add_days in Hadd.
  destruct ((Datetime.min_ordinal <=? s + -1)
            && (s + -1 <=? Datetime.max_ordinal)); inversion Hadd; subst d0.
  cbn [outcome_bind]. unfold IFFFootnoteReader.steps. rewrite He.
  replace (s + -1 <=? e) with false by (symmetry; apply Z.leb_gt; lia).
  apply (collect_past_end_date r e _ He); [lia | apply Nat.le_refl].
Qed.

(** X7: when end_date is the day before start_date the date
    range is empty. *)
Theorem date_range_of_an_empty_window (r : reader) (s : Z) :
  start_date r = Some (VDate s) ->
  end_date r = Some (VDate (s - 1)) ->
  Datetime.min_ordinal < s <= Datetime.max_ordinal + 1 ->
  IFFFootnoteReader.date_range_list r = Ok [].
Proof.
  intros Hs He [Hmin Hmax].
  unfold IFFFootnoteReader.date_range_list, IFFFootnoteReader.date_iterator_init.
  rewrite Hs. unfold Datetime.add_days.
  replace ((Datetime.min_ordinal <=? s + -1)
           && (s + -1 <=? Datetime.max_ordinal)) with true
    by (symmetry; apply andb_true_intro; split; apply Z.leb_le; lia).
  cbn [outcome_bind]. unfold IFFFootnoteReader.steps. rewrite He.
  rewrite collect_S, (date_iterator_next_date r (s - 1) (s + -1) He).
  replace (s + -1 =? s - 1) with true by (symmetry; apply Z.eqb_eq; lia).
  reflexivity.
Qed.

End DateRangeEdges.

Lemma date_range_of_reversed_january :
  IFFFootnoteReader.date_range_list
    (Input.after_identification []) = Ok [737425; 737426; 737427]%Z /\
  IFFFootnoteReader.init (Input.lines [Input.reversed_identification]) false =
  Raise OverflowError.
Proof.
  split.
  - reflexivity.
  - unfold IFFFootnoteReader.init.
    destruct (IFFReader.init (Input.lines [Input.reversed_identification]) false)
      as [r| |] eqn:Hinit; try (vm_compute in Hinit; discriminate Hinit).
    cbn [outcome_bind].
    rewrite (date_range_of_a_reversed_window r 737427 737425).
    + reflexivity.
    + vm_compute in Hinit. inversion Hinit. reflexivity.
    + vm_compute in Hinit. inversion Hinit. reflexivity.
    + lia.
Defined.

Lemma date_range_of_empty_january :
  exists r,
    IFFReader.init (Input.lines [Input.empty_identification]) false = Ok r /\
    IFFFootnoteReader.date_range_list r = Ok [].
Proof.
  destruct (IFFReader.init (Input.lines [Input.empty_identification]) false)
    as [r| |] eqn:Hinit; try (vm_compute in Hinit; discriminate Hinit).
  exists r. split; [reflexivity|].
  apply (date_range_of_an_empty_window r 737426).
  - vm_compute in Hinit. inversion Hinit. reflexivity.
  - vm_compute in Hinit. inversion Hinit. reflexivity.
  - unfold Datetime.min_ordinal, Datetime.max_ordinal. lia.
Defined.

Lemma peek_then_next_line_on_two_lines :
  exists r1 r2,
    IFFReader.peek (Input.bare ["a"; "b"]) = (Ok "a", r1) /\
    IFFReader.next_line r1 = (Ok "a", r2) /\
    pushed_back r2 = [] /\ file r2 = ["b"] /\
    file (Input.bare ["a"; "b"]) = "a" :: file r2.
Proof.
  destruct (peek_then_next_line (Input.bare ["a"; "b"])
              (Reader ["b"] ["a"] None None None None) "a" eq_refl eq_refl)
    as (_ & r2 & Hnext & Hpb & Hfile & Hadv).
  exists (Reader ["b"] ["a"] None None None None), r2.
  repeat split; assumption.
Defined.

(** ** Outcomes that are never a timeout *)

Lemma int_or_error_not_Timeout (s : string) :
  IFFReader.int_or_error s <> Timeout.
Proof. unfold IFFReader.int_or_error. destruct (Py.int s); discriminate. Qed.

Lemma outcome_bind_not_Timeout {A B} (o : outcome A) (f : A -> outcome B) :
  o <> Timeout -> (forall a, f a <> Timeout) -> outcome_bind o f <> Timeout.
Proof.
  intros Ho Hf. destruct o as [a| |]; simpl;
    [apply Hf | discriminate | exfalso; apply Ho; reflexivity].
Qed.

Lemma convert_not_Timeout (data_type string_value : string) :
  IFFReader.convert data_type string_value <> Timeout.
Proof.
  unfold IFFReader.convert, IFFReader.date, IFFReader.time.
  repeat match goal with
         | |- (if ?b then _ else _) <> _ => destruct b
         | |- outcome_bind _ _ <> _ =>
             apply outcome_bind_not_Timeout;
             [apply int_or_error_not_Timeout | intros ?]
         | |- match ?x with _ => _ end <> _ => destruct x
         end; discriminate.
Qed.

Lemma convert_groups_not_Timeout (groups : list (string * string)) :
  forall row_data, IFFReader.convert_groups groups row_data <> Timeout.
Proof.
  induction groups as [|[name text] groups IH]; intros row_data; simpl.
  - discriminate.
  - apply outcome_bind_not_Timeout; [apply convert_not_Timeout|].
    intros v. apply IH.
Qed.

Lemma parse_row_not_Timeout (row : string) (p : Re.regexp) :
  IFFReader.parse_row row p <> Timeout.
Proof.
  unfold IFFReader.parse_row. destruct (Re.rmatch p row);
    [apply convert_groups_not_Timeout | discriminate].
Qed.

(** ** The cursor and the length of the source *)

Lemma next_line_file (r r' : reader) (o : outcome string) :
  IFFReader.next_line r = (o, r') ->
  o <> Timeout /\ List.length (file r') <= List.length (file r).
Proof.
  unfold IFFReader.next_line, file_next.
  destruct (pop (pushed_back r)) as [[x others]|].
  - intros H; inversion H; subst. split; [discriminate | simpl; lia].
  - destruct (file r) as [|x rest] eqn:Hf; intros H; inversion H; subst;
      (split; [discriminate | simpl; try rewrite Hf; simpl; lia]).
Qed.

Lemma next_line_of_short_buffer (r r1 : reader) (row : string) :
  List.length (pushed_back r) <= 1 ->
  IFFReader.next_line r = (Ok row, r1) ->
  pushed_back r ++ file r = row :: file r1 /\ pushed_back r1 = [].
Proof.
  intros Hlen. unfold IFFReader.next_line, file_next.
  destruct (pushed_back r) as [|x [|y pb]] eqn:Hpb; simpl in Hlen; [| |lia].
  - simpl. destruct (file r) as [|l rest]; intros H; inversion H; subst.
    simpl. split; reflexivity.
  - simpl. intros H; inversion H; subst. simpl. split; reflexivity.
Qed.

(** ** The grouped readers: termination and the lines they take *)

Section GroupedProperties.
Variables (HEAD TAIL : Re.regexp) (key : string) (is_tail : ascii -> bool).

Lemma tail_loop_terminates (fuel : nat) :
  forall (record : dict) (line : string) (r : reader),
    List.length (file r) < fuel ->
    fst (Grouped.tail_loop TAIL key is_tail fuel record line r) <> Timeout.
Proof.
  induction fuel as [|fuel IH]; intros record line r Hfuel; [lia|].
  simpl. unfold bind, lift, try_stop.
  destruct line as [|c line]; simpl; [discriminate|].
  destruct (is_tail c); [|discriminate].
  destruct (IFFReader.next_line r) as [o r1] eqn:Hrow.
  apply next_line_file in Hrow. destruct Hrow as [Ho Hlen].
  destruct o as [row|e|]; [|destruct e; discriminate | contradiction].
  pose proof (parse_row_not_Timeout row TAIL) as Hparse.
  destruct (IFFReader.parse_row row TAIL) as [item|e|];
    [|discriminate | contradiction].
  unfold list_append.
  destruct (dict_get key record) as [[ | | | |items| ]|]; try discriminate.
  destruct (IFFReader.peek r1) as [o r2] eqn:Hpeek.
  apply peek_file in Hpeek.
  destruct o as [line'|e|]; [| |contradiction].
  - destruct Hpeek as [Hfile _]. apply IH. rewrite Hfile in Hlen.
    simpl in Hlen. lia.
  - destruct Hpeek as [-> _]. discriminate.
Qed.

(** X8: on a finite source a call of a grouped
    reader comes to an end, by a record or an exception, within as many
    turns of its loop as the source has lines. *)
Theorem grouped_next_terminates (fuel : nat) (r : reader) :
  List.length (file r) < fuel ->
  fst (Grouped.next HEAD TAIL key is_tail fuel r) <> Timeout.
Proof.
  intros Hfuel. unfold Grouped.next, bind, lift.
  destruct (IFFReader.next_line r) as [o r1] eqn:Hrow.
  apply next_line_file in Hrow. destruct Hrow as [Ho Hlen].
  destruct o as [row|e|]; [|discriminate | contradiction].
  pose proof (parse_row_not_Timeout row HEAD) as Hparse.
  destruct (IFFReader.parse_row row HEAD) as [record|e|];
    [|discriminate | contradiction].
  destruct (IFFReader.peek r1) as [o r2] eqn:Hpeek.
  apply peek_file in Hpeek.
  destruct o as [line|e|]; [|discriminate | contradiction].
  destruct Hpeek as [Hfile _]. apply tail_loop_terminates.
  rewrite Hfile in Hlen. simpl in Hlen. lia.
Qed.

Lemma tail_loop_consumes (fuel : nat) :
  forall (record record' : dict) (line : string) (r r' : reader)
         (items : list pyvalue),
    pushed_back r = [line] ->
    dict_get key record = Some (VList items) ->
    Grouped.tail_loop TAIL key is_tail fuel record line r = (Ok record', r') ->
    exists tails items',
      line :: file r = tails ++ pushed_back r' ++ file r' /\
      List.length (pushed_back r') <= 1 /\
      Forall (fun l => Grouped.starts_with is_tail l = true) tails /\
      Forall (fun l => Grouped.starts_with is_tail l = false) (pushed_back r') /\
      (pushed_back r' = [] -> file r' = []) /\
      dict_get key record' = Some (VList items') /\
      List.length items' = List.length items + List.length tails.
Proof.
  induction fuel as [|fuel IH]; intros record record' line r r' items Hpb Hkey H;
    [discriminate H|].
  simpl in H.
  apply bind_Ok in H as (c & r0 & Hc & H). apply lift_Ok in Hc as [Hc ->].
  assert (Hstart : Grouped.starts_with is_tail line = is_tail c).
  { destruct line; inversion Hc. reflexivity. }
  destruct (is_tail c) eqn:Htail.
  - apply bind_Ok in H as (o & r1 & Hrow & H). apply try_stop_Ok in Hrow.
    assert (Hnl : IFFReader.next_line r =
                  (Ok line, set_pushed_back [] r)).
    { unfold IFFReader.next_line. rewrite Hpb. reflexivity. }
    destruct o as [row|]; rewrite Hnl in Hrow; [|discriminate Hrow].
    inversion Hrow; subst row r1. clear Hrow Hnl.
    apply bind_Ok in H as (item & r2 & Hitem & H).
    apply lift_Ok in Hitem as [Hitem ->].
    apply bind_Ok in H as (record1 & r3 & Happ & H).
    apply lift_Ok in Happ as [Happ ->].
    apply list_append_Ok in Happ. destruct Happ as [items0 [H0 [_ Hget]]].
    rewrite Hkey in H0. inversion H0; subst items0. clear H0.
    apply bind_Ok in H as (o & r4 & Hpeek & H). apply try_stop_Ok in Hpeek.
    destruct o as [line'|]; apply peek_file in Hpeek.
    + destruct Hpeek as [Hfile Hpb'].
      destruct (IH _ _ _ _ _ _ Hpb' Hget H)
        as (tails & items' & Hcons & Hlen & Htails & Hrest & Hend & Hget' & Hn).
      exists (line :: tails), items'. simpl in Hfile.
      split; [simpl; rewrite Hfile, Hcons; reflexivity|].
      split; [exact Hlen|]. split; [constructor; assumption|].
      split; [exact Hrest|]. split; [exact Hend|]. split; [exact Hget'|].
      rewrite Hn, length_app. simpl. lia.
    + destruct Hpeek as [_ [-> Hfile]]. apply ret_Ok in H as [-> ->].
      simpl in Hfile. exists [line], (items ++ [VDict item]). simpl.
      rewrite Hfile. split; [reflexivity|]. split; [lia|].
      split; [constructor; [assumption | constructor]|].
      split; [constructor|]. split; [reflexivity|]. split; [exact Hget|].
      rewrite length_app. simpl. lia.
  - apply ret_Ok in H as [-> ->]. exists [], items. rewrite Hpb. simpl.
    split; [reflexivity|]. split; [lia|]. split; [constructor|].
    split; [constructor; [assumption | constructor]|].
    split; [discriminate|]. split; [exact Hkey | lia].
Qed.

(** X9: when a
    grouped reader returns a record, it has consumed the head line and the
    tail lines that follow it, one item per tail line is in the record's
    list, and the line after them, if any, stays in the buffer for the
    next call: no line is lost, and at most one line is buffered. *)
Theorem grouped_next_consumes_head_and_tails (fuel : nat) (r r' : reader)
        (record : dict) :
  List.length (pushed_back r) <= 1 ->
  Grouped.next HEAD TAIL key is_tail fuel r = (Ok record, r') ->
  exists head tails items,
    pushed_back r ++ file r = head :: tails ++ pushed_back r' ++ file r' /\
    List.length (pushed_back r') <= 1 /\
    Forall (fun l => Grouped.starts_with is_tail l = true) tails /\
    Forall (fun l => Grouped.starts_with is_tail l = false) (pushed_back r') /\
    (pushed_back r' = [] -> file r' = []) /\
    dict_get key record = Some (VList items) /\
    List.length items = List.length tails.
Proof.
  intros Hshort H. unfold Grouped.next in H.
  apply bind_Ok in H as (row & r1 & Hrow & H).
  apply (next_line_of_short_buffer _ _ _ Hshort) in Hrow.
  destruct Hrow as [Hstream Hpb1].
  apply bind_Ok in H as (hrec & r2 & Hhead & H).
  apply lift_Ok in Hhead as [Hhead ->].
  apply bind_Ok in H as (line & r3 & Hpeek & H).
  apply peek_file in Hpeek. destruct Hpeek as [Hfile Hpb3].
  rewrite Hpb1 in Hpb3. simpl in Hpb3.
  destruct (tail_loop_consumes _ _ _ _ _ _ [] Hpb3
              (dict_get_set_same key (VList []) hrec) H)
    as (tails & items & Hcons & Hlen & Htails & Hrest & Hend & Hget & Hn).
  exists row, tails, items. rewrite Hstream, Hfile, Hcons.
  repeat split; assumption.
Qed.

End GroupedProperties.

Lemma changes_reader_terminates :
  fst (IFFChangesReader.next 3
         (Input.bare (Input.lines [Input.station_head;
                                   "-00000001,00000002,12"]))) <> Timeout.
Proof.
  apply (grouped_next_terminates IFFChangesReader.REGEXP
           IFFChangesReader.CHANGE_REGEXP "changes"
           (fun c => Ascii.eqb c "-") 3).
  simpl. lia.
Defined.

Lemma changes_reader_leaves_the_next_head :
  exists record r' items,
    IFFChangesReader.next 3
      (Input.bare (Input.lines [Input.station_head; "-00000001,00000002,12";
                                Input.station_head])) = (Ok record, r') /\
    pushed_back r' = Input.lines [Input.station_head] /\
    file r' = [] /\
    dict_get "changes" record = Some (VList items) /\
    List.length items = 1.
Proof.
  destruct (IFFChangesReader.next 3
              (Input.bare (Input.lines [Input.station_head;
                                        "-00000001,00000002,12";
                                        Input.station_head])))
    as [[record| |] r'] eqn:Hrun; try (vm_compute in Hrun; discriminate Hrun).
  destruct (grouped_next_consumes_head_and_tails
              IFFChangesReader.REGEXP IFFChangesReader.CHANGE_REGEXP "changes"
              (fun c => Ascii.eqb c "-") 3
              (Input.bare (Input.lines [Input.station_head;
                                        "-00000001,00000002,12";
                                        Input.station_head]))
              r' record (Nat.le_0_l 1) Hrun)
    as (head & tails & items & _ & _ & _ & _ & _ & Hget & _).
  exists record, r', items. split; [reflexivity|].
  vm_compute in Hrun. inversion Hrun; subst record r'. clear Hrun.
  vm_compute in Hget. inversion Hget; subst items.
  repeat split.
Defined.

(** ** The service reader at the end of the input *)

(** X11: a service head line that is the
    last line of the input is parsed and then lost: the peek that follows
    it is not guarded, and StopIteration leaves [__next__]. *)
Theorem service_head_on_last_line (fuel : nat) (r r1 : reader) (row : string)
        (service : dict) :
  IFFReader.next_line r = (Ok row, r1) ->
  IFFReader.parse_row row IFFTimeTablesReader.REGEXP = Ok service ->
  file r1 = [] ->
  IFFTimeTablesReader.next fuel r = (Raise StopIteration, r1).
Proof.
  intros Hrow Hservice Hend. unfold IFFTimeTablesReader.next, bind.
  rewrite Hrow. unfold lift. rewrite Hservice, (peek_at_end r1 Hend).
  reflexivity.
Qed.

Lemma service_head_alone :
  IFFTimeTablesReader.next 5 (Input.bare (Input.lines ["#00000001"])) =
  (Raise StopIteration, Input.bare []).
Proof.
  apply (service_head_on_last_line 5 _ _ ("#00000001" ++ Input.nl)
           [("service_identification", VInt 1%Z)]); reflexivity.
Defined.

Section FinalStop.
Local Open Scope Z_scope.

(** X12: when the final stop is the last line
    of the input, the peek after it raises StopIteration, the handler
    appends the stop to the route, and the service is returned. *)
Theorem final_stop_at_end_of_input (inner fuel : nat) (l : T.locals)
        (r r1 : reader) (row : string) (st0 : dict) :
  Route.between_turns l ->
  T.last_stop_done l = false ->
  index0 (T.next_line l) = Ok "<"%char ->
  IFFReader.next_line r = (Ok row, r1) ->
  IFFReader.parse_row row T.FINAL_REGEXP = Ok st0 ->
  file r1 = [] ->
  exists route service',
    dict_get "route" (T.service l) = Some (VList route) /\
    T.route_loop (S (S fuel)) inner l r = (Ok service', r1) /\
    dict_get "route" service' =
    Some (VList (route ++
                 [VDict (dict_set "stop_index" (VInt (T.stop_index l + 1))
                           (dict_set "platform" (VList []) st0))])).
Proof.
  intros [route [Hroute [Hok _]]] Hdone Hc Hrow Hparse Hend.
  exists route.
  set (st := dict_set "stop_index" (VInt (T.stop_index l + 1))
                      (dict_set "platform" (VList []) st0)).
  assert (Hnew : value_in (VDict st) route = false).
  { destruct (value_in (VDict st) route) eqn:Hin; [|reflexivity].
    apply value_in_In in Hin. exfalso.
    apply (halting_stop_is_new route (T.stop_index l + 1) (VDict st)).
    - replace (T.stop_index l + 1 - 1) with (T.stop_index l) by lia. exact Hok.
    - apply dict_get_set_same.
    - exact Hin. }
  exists (dict_set "route" (VList (route ++ [VDict st])) (T.service l)).
  split; [exact Hroute|]. split; [|apply dict_get_set_same].
  cbn [T.route_loop]. rewrite Hdone. unfold bind at 1.
  assert (Hbody : T.route_body inner l r =
                  (Ok (T.Locals
                         (dict_set "route" (VList (route ++ [VDict st]))
                                   (T.service l))
                         (Some st) (T.stop_index l + 1) true (T.next_line l)),
                   r1)).
  { unfold T.route_body, bind, try_stop, lift. rewrite Hrow, Hc.
    unfold T.parse_stop. cbn [Ascii.eqb Bool.eqb]. rewrite Hparse.
    cbn [outcome_bind]. rewrite (peek_at_end r1 Hend).
    unfold T.on_stop_iteration. cbn [T.stop T.service].
    unfold bind, lift. rewrite (proj2 (getlist_Ok _ _ _) Hroute).
    fold st. rewrite Hnew. unfold list_append. rewrite Hroute.
    reflexivity. }
  rewrite Hbody. reflexivity.
Qed.

Lemma single_final_stop_is_returned :
  exists service',
    T.route_loop 2 0
      (T.Locals Input.service_without_route None 0 false
                ("<ccccccc,1100" ++ Input.nl))
      Input.at_final_stop = (Ok service', Input.bare []) /\
    dict_get "route" service' =
    Some (VList [VDict [("station_short_name", VStr "ccccccc");
                        ("arrival_time", VDelta (Datetime.Timedelta 0 39600));
                        ("platform", VList []); ("stop_index", VInt 1)]]).
Proof.
  destruct (final_stop_at_end_of_input 0 0
              (T.Locals Input.service_without_route None 0 false
                        ("<ccccccc,1100" ++ Input.nl))
              Input.at_final_stop (Input.bare [])
              ("<ccccccc,1100" ++ Input.nl)
              [("station_short_name", VStr "ccccccc");
               ("arrival_time", VDelta (Datetime.Timedelta 0 39600))])
    as (route & service' & Hroute & Hrun & Hget); try reflexivity.
  - exists []. simpl. split; [reflexivity|]. split; [|exact I].
    split; [lia|]. split; [reflexivity | constructor].
  - exists service'. split; [exact Hrun|].
    vm_compute in Hroute. inversion Hroute; subst route. exact Hget.
Defined.

End FinalStop.

(** ** The field engine *)

Lemma match_rep_exact {A : Type} (k : Re.cclass) (n : nat) :
  forall (a rest cap : string) (cont : string -> string -> option A),
    String.length a = n ->
    Forall (fun c => Re.cmatch k c = true) (Py.chars a) ->
    Re.match_rep k n 0 (a ++ rest) cap cont = cont (cap ++ a)%string rest.
Proof.
  induction n as [|n IH]; intros a rest cap cont Hlen Hall.
  - destruct a; [|discriminate Hlen]. simpl. rewrite append_nil_r. reflexivity.
  - destruct a as [|c a]; [discriminate Hlen|].
    simpl in Hall. inversion Hall; subst. simpl.
    rewrite H1. rewrite IH by (try assumption; simpl in Hlen; lia).
    rewrite append_assoc. reflexivity.
Qed.

Lemma any_matches (a : string) :
  Forall (fun c => c <> "010"%char) (Py.chars a) ->
  Forall (fun c => Re.cmatch Re.Any c = true) (Py.chars a).
Proof.
  apply Forall_impl. intros c Hc. simpl.
  destruct (Ascii.eqb c "010") eqn:E; [|reflexivity].
  apply Ascii.eqb_eq in E. contradiction.
Qed.

(** X13: a language or transport mode line made of
    a code of 4 characters, a comma and a description of 30 characters,
    none of them a line feed, is decoded to exactly these two fields with
    the surrounding blanks removed; whatever follows on the line is
    ignored. *)
Theorem fixed_width_text_fields (r r1 : reader)
        (code description rest : string) :
  IFFReader.next_line r =
  (Ok (code ++ "," ++ description ++ rest)%string, r1) ->
  String.length code = 4 ->
  String.length description = 30 ->
  Forall (fun c => c <> "010"%char) (Py.chars code) ->
  Forall (fun c => c <> "010"%char) (Py.chars description) ->
  IFFLanguageReader.next r =
  (Ok [("language_code", VStr (Py.strip code));
       ("description", VStr (Py.strip description))], r1) /\
  IFFTransportModeReader.next r =
  (Ok [("transport_mode_code", VStr (Py.strip code));
       ("description", VStr (Py.strip description))], r1).
Proof.
  intros Hrow Hc Hd Hcn Hdn.
  apply any_matches in Hcn. apply any_matches in Hdn.
  split.
  - unfold IFFLanguageReader.next, IFFReader.next, bind. rewrite Hrow.
    unfold lift, IFFReader.parse_row, Re.rmatch, IFFLanguageReader.REGEXP.
    cbn [Re.groupdict Re.match_alts Re.match_atoms Re.dot Re.cls Re.lo Re.more].
    rewrite (match_rep_exact Re.Any 4 code _ _ _ Hc Hcn).
    cbn [Re.match_atoms Re.groupdict append Ascii.eqb Bool.eqb].
    rewrite (match_rep_exact Re.Any 30 description _ _ _ Hd Hdn).
    reflexivity.
  - unfold IFFTransportModeReader.next, IFFReader.next, bind. rewrite Hrow.
    unfold lift, IFFReader.parse_row, Re.rmatch, IFFTransportModeReader.REGEXP.
    cbn [Re.groupdict Re.match_alts Re.match_atoms Re.dot Re.cls Re.lo Re.more].
    rewrite (match_rep_exact Re.Any 4 code _ _ _ Hc Hcn).
    cbn [Re.match_atoms Re.groupdict append Ascii.eqb Bool.eqb].
    rewrite (match_rep_exact Re.Any 30 description _ _ _ Hd Hdn).
    reflexivity.
Qed.

Lemma language_line_is_decoded :
  IFFLanguageReader.next
    (Input.bare (Input.lines ["EN  ,English                       "])) =
  (Ok [("language_code", VStr "EN"); ("description", VStr "English")],
   Input.bare []).
Proof.
  refine (proj1 (fixed_width_text_fields
                   (Input.bare (Input.lines ["EN  ,English                       "]))
                   (Input.bare [])
                   "EN  " "English                       " Input.nl
                   eq_refl eq_refl eq_refl _ _));
    vm_compute; repeat (constructor; [discriminate|]); constructor.
Defined.

Lemma lstrip_blank (s : string) :
  Forall (fun c => Py.isspace c = true) (Py.chars s) -> Py.lstrip s = "".
Proof.
  induction s as [|c s IH]; simpl; intros H; [reflexivity|].
  inversion H; subst. rewrite H2. exact (IH H3).
Qed.

(** X14: an integer or wildcard-integer field whose
    column holds only blanks is decoded as 0, not rejected. *)
Theorem blank_integer_column_is_zero (group_name text : string)
        (row_data : dict) :
  Py.name_suffix group_name = "int" \/ Py.name_suffix group_name = "intw" ->
  Forall (fun c => Py.isspace c = true) (Py.chars text) ->
  IFFReader.convert_groups [(group_name, text)] row_data =
  Ok (dict_set (Py.name_prefix group_name) (VInt 0) row_data).
Proof.
  intros Hsuffix Hblank. simpl. unfold Py.strip.
  rewrite (lstrip_blank text Hblank).
  destruct Hsuffix as [-> | ->]; reflexivity.
Qed.

Lemma blank_attr_column :
  IFFReader.convert_groups [("attr_int", "  ")] [] = Ok [("attr", VInt 0)].
Proof.
  apply (blank_integer_column_is_zero "attr_int" "  " []).
  - left. reflexivity.
  - repeat constructor.
Defined.

(** ** Stop lines of a service *)

Lemma match_single_atom {A : Type} (k : Re.cclass) (lo more : nat)
      (s : string) (cont : string -> string -> option A) (x : A) :
  Re.match_alts [[Re.Rep k lo more]] s cont = Some x ->
  exists taken rest,
    s = (taken ++ rest)%string /\
    Forall (fun c => Re.cmatch k c = true) (Py.chars taken) /\
    lo <= String.length taken <= lo + more /\
    cont taken rest = Some x.
Proof.
  cbn [Re.match_alts Re.match_atoms Re.cls Re.lo Re.more]. intros H.
  destruct (Re.match_rep k lo more s "" _) as [y|] eqn:E; [|discriminate H].
  inversion H; subst y. apply match_rep_inv in E. exact E.
Qed.

Lemma isdigit_facts (c : ascii) :
  Py.isdigit c = true ->
  Py.isspace c = false /\ (0 <= Py.digit_value c <= 9)%Z.
Proof.
  intros H. apply isdigit_In in H. simpl in H.
  repeat (destruct H as [H|H]; [subst c; split; [reflexivity | vm_compute; split; discriminate]|]).
  contradiction.
Qed.

(** A field of four digits is always a time, of at most 99 hours and 99
    minutes. *)
Lemma time_of_four_digits (t : string) :
  String.length t = 4 ->
  Forall (fun c => Py.isdigit c = true) (Py.chars t) ->
  exists td,
    IFFReader.time (Py.strip t) = Ok (VDelta td) /\
    (0 <= Datetime.total_minutes td <= 99 * 60 + 99)%Z.
Proof.
  intros Hlen Hall.
  destruct t as [|a [|b [|c [|d [|e t]]]]]; try discriminate Hlen.
  simpl in Hall.
  inversion Hall as [|? ? Ha Hall1]; subst.
  inversion Hall1 as [|? ? Hb Hall2]; subst.
  inversion Hall2 as [|? ? Hc Hall3]; subst.
  inversion Hall3 as [|? ? Hd _]; subst.
  destruct (isdigit_facts a Ha) as [Hsa Hva].
  destruct (isdigit_facts b Hb) as [_ Hvb].
  destruct (isdigit_facts c Hc) as [_ Hvc].
  destruct (isdigit_facts d Hd) as [Hsd Hvd].
  assert (Hstrip : Py.strip (String a (String b (String c (String d "")))) =
                   String a (String b (String c (String d "")))).
  { unfold Py.strip. simpl. rewrite Hsa. simpl. rewrite Hsd. reflexivity. }
  rewrite Hstrip. eexists. split.
  - unfold IFFReader.time, IFFReader.int_or_error, Py.slice. simpl substring.
    rewrite (int_two_digits a b Ha Hb), (int_two_digits c d Hc Hd).
    cbn [outcome_bind]. reflexivity.
  - rewrite total_minutes_of_hours_minutes. lia.
Qed.

(** The record of a line made of a marker, a station name of 7 characters,
    a comma and a time of 4 digits. *)
Lemma parse_station_and_time (m : ascii) (key : string) (row : string) :
  (key = "departure_time_time" \/ key = "arrival_time_time" \/
   key = "time_time") ->
  let p := [Re.Lit m; Re.Group "station_short_name_str" [[Re.dot 7]];
            Re.Lit ","; Re.Group key [[Re.dig 4]]] in
  IFFReader.parse_row row p = Raise (IFFReaderRowTypeException row) \/
  exists name td,
    IFFReader.parse_row row p =
    Ok [("station_short_name", VStr name); (Py.name_prefix key, VDelta td)] /\
    (0 <= Datetime.total_minutes td <= 99 * 60 + 99)%Z.
Proof.
  intros Hkey p. unfold IFFReader.parse_row, Re.rmatch.
  destruct (Re.groupdict p row []) as [g|] eqn:Hg; [|left; reflexivity].
  right. unfold p in Hg. cbn [Re.groupdict] in Hg.
  destruct row as [|c row]; [discriminate Hg|].
  destruct (Ascii.eqb c m); [|discriminate Hg].
  unfold Re.dot in Hg.
  apply match_single_atom in Hg as (name & rest & _ & _ & _ & Hg).
  destruct rest as [|x rest]; [discriminate Hg|].
  destruct (Ascii.eqb x ","); [|discriminate Hg].
  unfold Re.dig in Hg.
  apply match_single_atom in Hg as (t & rest' & _ & Hdigits & Hlen & Hg).
  inversion Hg; subst g. clear Hg.
  destruct (time_of_four_digits t) as (td & Htime & Hrange);
    [lia | exact Hdigits |].
  exists (Py.strip name), td. split; [|exact Hrange].
  destruct Hkey as [-> | [-> | ->]];
    cbn [IFFReader.convert_groups app];
    match goal with
    | |- context [IFFReader.convert (Py.name_suffix ?k) ?v] =>
        change (IFFReader.convert (Py.name_suffix k) v)
          with (IFFReader.time v)
    end;
    rewrite Htime; reflexivity.
Qed.

(** X15: a start, final or continuation line either does not
    match its pattern, which raises IFFReaderRowTypeException, or yields
    the station name and a time of at most 99 hours 99 minutes; the
    conversion of its fields never fails. *)
Theorem stop_lines_only_fail_on_their_shape (row : string) :
  (IFFReader.parse_row row T.START_REGEXP =
   Raise (IFFReaderRowTypeException row) \/
   exists name td,
     IFFReader.parse_row row T.START_REGEXP =
     Ok [("station_short_name", VStr name); ("departure_time", VDelta td)] /\
     (0 <= Datetime.total_minutes td <= 99 * 60 + 99)%Z) /\
  (IFFReader.parse_row row T.FINAL_REGEXP =
   Raise (IFFReaderRowTypeException row) \/
   exists name td,
     IFFReader.parse_row row T.FINAL_REGEXP =
     Ok [("station_short_name", VStr name); ("arrival_time", VDelta td)] /\
     (0 <= Datetime.total_minutes td <= 99 * 60 + 99)%Z) /\
  (IFFReader.parse_row row T.CONTINUATION_REGEXP =
   Raise (IFFReaderRowTypeException row) \/
   exists name td,
     IFFReader.parse_row row T.CONTINUATION_REGEXP =
     Ok [("station_short_name", VStr name); ("time", VDelta td)] /\
     (0 <= Datetime.total_minutes td <= 99 * 60 + 99)%Z).
Proof.
  split; [|split].
  - exact (parse_station_and_time ">" "departure_time_time" row
             (or_introl eq_refl)).
  - exact (parse_station_and_time "<" "arrival_time_time" row
             (or_intror (or_introl eq_refl))).
  - exact (parse_station_and_time "." "time_time" row
             (or_intror (or_intror eq_refl))).
Qed.

(** ** Integers and dates written in digits *)

Lemma rstrip_no_space (s : string) :
  Forall (fun c => Py.isspace c = false) (Py.chars s) -> Py.rstrip s = s.
Proof.
  induction s as [|c s IH]; simpl; intros H; [reflexivity|].
  inversion H; subst. rewrite (IH H3), H2. destruct s; reflexivity.
Qed.

Lemma digits_are_no_spaces (s : string) :
  Forall (fun c => Py.isdigit c = true) (Py.chars s) ->
  Forall (fun c => Py.isspace c = false) (Py.chars s).
Proof.
  apply Forall_impl. intros c Hc. exact (proj1 (isdigit_facts c Hc)).
Qed.

(** On a string of digits [int] reads the digits, without sign and
    without blanks to remove. *)
Lemma int_of_digits (a : ascii) (s : string) :
  Py.isdigit a = true ->
  Forall (fun c => Py.isdigit c = true) (Py.chars s) ->
  Py.int (String a s) = Py.int_digits s (Py.digit_value a) true.
Proof.
  intros Ha Hs. unfold Py.int, Py.strip.
  assert (Hl : Py.lstrip (String a s) = String a s).
  { simpl. rewrite (proj1 (isdigit_facts a Ha)). reflexivity. }
  rewrite Hl, rstrip_no_space
    by (apply digits_are_no_spaces; constructor; assumption).
  apply isdigit_In in Ha. simpl in Ha.
  repeat (destruct Ha as [Ha|Ha]; [subst a; reflexivity|]).
  contradiction.
Qed.

Section Dates.
Local Open Scope Z_scope.

(** X16: a token of eight digits is read as day, month, year
    in this order; it yields the calendar date when there is one and
    ValueError otherwise. *)
Theorem date_reads_day_month_year (d1 d2 m1 m2 y1 y2 y3 y4 : ascii) :
  Forall (fun c => Py.isdigit c = true) [d1; d2; m1; m2; y1; y2; y3; y4] ->
  IFFReader.date
    (String d1 (String d2 (String m1 (String m2
       (String y1 (String y2 (String y3 (String y4 "")))))))) =
  match Datetime.mkdate
          (((Py.digit_value y1 * 10 + Py.digit_value y2) * 10
            + Py.digit_value y3) * 10 + Py.digit_value y4)
          (Py.digit_value m1 * 10 + Py.digit_value m2)
          (Py.digit_value d1 * 10 + Py.digit_value d2)
  with
  | Some dt => Ok (VDate dt)
  | None => Raise ValueError
  end.
Proof.
  intros H.
  inversion H as [|? ? Hd1 H1]; subst. inversion H1 as [|? ? Hd2 H2]; subst.
  inversion H2 as [|? ? Hm1 H3]; subst. inversion H3 as [|? ? Hm2 H4]; subst.
  inversion H4 as [|? ? Hy1 H5]; subst. inversion H5 as [|? ? Hy2 H6]; subst.
  inversion H6 as [|? ? Hy3 H7]; subst. inversion H7 as [|? ? Hy4 _]; subst.
  unfold IFFReader.date, IFFReader.int_or_error, Py.slice. simpl substring.
  rewrite (int_of_digits y1 _ Hy1)
    by (repeat (constructor; [assumption|]); constructor).
  rewrite (int_of_digits m1 _ Hm1)
    by (repeat (constructor; [assumption|]); constructor).
  rewrite (int_of_digits d1 _ Hd1)
    by (repeat (constructor; [assumption|]); constructor).
  cbn [Py.int_digits]. rewrite Hy2, Hy3, Hy4, Hm2, Hd2.
  cbn [outcome_bind]. reflexivity.
Qed.

Lemma first_of_january_2020 :
  IFFReader.date "01012020" = Ok (VDate 737425) /\
  IFFReader.date "31022020" = Raise ValueError.
Proof.
  split.
  - rewrite (date_reads_day_month_year "0" "1" "0" "1" "2" "0" "2" "0")
      by (repeat (constructor; [reflexivity|]); constructor).
    reflexivity.
  - rewrite (date_reads_day_month_year "3" "1" "0" "2" "2" "0" "2" "0")
      by (repeat (constructor; [reflexivity|]); constructor).
    reflexivity.
Defined.

End Dates.

(** ** The company column of an x-change line *)

Section XChanges.
Local Open Scope Z_scope.

Lemma match_company {A : Type} (s : string)
      (cont : string -> string -> option A) (x : A) :
  Re.match_alts
    [[Re.one (Re.Char "*"); Re.one Re.Space; Re.one Re.Space]; [Re.dig 3]]
    s cont = Some x ->
  exists taken rest, IFFXChangesReader.company_text taken /\ cont taken rest = Some x.
Proof.
  cbn [Re.match_alts]. intros H.
  destruct (Re.match_atoms
              [Re.one (Re.Char "*"); Re.one Re.Space; Re.one Re.Space]
              s "" cont) as [y|] eqn:E1.
  - inversion H; subst y. clear H.
    cbn [Re.match_atoms Re.one Re.cls Re.lo Re.more] in E1.
    apply match_rep_inv in E1 as (t1 & r1 & _ & Hall1 & Hlen1 & E1).
    apply match_rep_inv in E1 as (t2 & r2 & _ & Hall2 & Hlen2 & E1).
    apply match_rep_inv in E1 as (t3 & r3 & _ & Hall3 & Hlen3 & E1).
    destruct t1 as [|a [|? ?]]; simpl in Hlen1; try lia.
    destruct t2 as [|b [|? ?]]; simpl in Hlen2; try lia.
    destruct t3 as [|c [|? ?]]; simpl in Hlen3; try lia.
    simpl in Hall1, Hall2, Hall3, E1.
    inversion Hall1 as [|? ? Ha _]; subst. inversion Hall2 as [|? ? Hb _]; subst.
    inversion Hall3 as [|? ? Hc _]; subst.
    simpl in Ha, Hb, Hc. apply Ascii.eqb_eq in Ha. subst a.
    exists (String "*" (String b (String c ""))), r3.
    split; [constructor; assumption | exact E1].
  - destruct (Re.match_atoms [Re.dig 3] s "" cont) as [y|] eqn:E2;
      [|discriminate H].
    inversion H; subst y. clear H.
    cbn [Re.match_atoms Re.dig Re.cls Re.lo Re.more] in E2.
    apply match_rep_inv in E2 as (t & r & _ & Hall & Hlen & E2).
    destruct t as [|a [|b [|c [|? ?]]]]; simpl in Hlen; try lia.
    simpl in Hall, E2.
    inversion Hall as [|? ? Ha Hall1]; subst.
    inversion Hall1 as [|? ? Hb Hall2]; subst.
    inversion Hall2 as [|? ? Hc _]; subst.
    exists (String a (String b (String c ""))), r.
    split; [constructor; assumption | exact E2].
Qed.

Lemma convert_intw (v : string) :
  IFFReader.convert "intw" v =
  if String.eqb v "" then Ok (VInt 0)
  else if String.eqb v "*" then Ok (VStr "*")
  else outcome_bind (IFFReader.int_or_error v) (fun n => Ok (VInt n)).
Proof. reflexivity. Qed.

Lemma convert_company (text : string) :
  IFFXChangesReader.company_text text ->
  IFFReader.convert "intw" (Py.strip text) = Ok (VStr "*") \/
  exists n, IFFReader.convert "intw" (Py.strip text) = Ok (VInt n) /\
            0 <= n <= 999.
Proof.
  intros [x y Hx Hy | a b c Ha Hb Hc].
  - left. unfold Py.strip. simpl. rewrite Hy, Hx. reflexivity.
  - right. exists ((Py.digit_value a * 10 + Py.digit_value b) * 10
                   + Py.digit_value c).
    destruct (isdigit_facts a Ha) as [Hsa Hva].
    destruct (isdigit_facts b Hb) as [_ Hvb].
    destruct (isdigit_facts c Hc) as [Hsc Hvc].
    split; [|lia].
    assert (Hstrip : Py.strip (String a (String b (String c ""))) =
                     String a (String b (String c ""))).
    { unfold Py.strip. simpl. rewrite Hsa. simpl. rewrite Hsc. reflexivity. }
    rewrite Hstrip, convert_intw.
    assert (Hstar : String.eqb (String a (String b (String c ""))) "*" = false).
    { apply String.eqb_neq. intros E. inversion E. }
    rewrite Hstar. cbn [String.eqb]. unfold IFFReader.int_or_error.
    rewrite (int_of_digits a _ Ha)
      by (repeat (constructor; [assumption|]); constructor).
    cbn [Py.int_digits]. rewrite Hb, Hc. reflexivity.
Qed.

Lemma xchange_groups (row : string) (g : list (string * string)) :
  Re.rmatch IFFXChangesReader.XCHANGE_REGEXP row = Some g ->
  exists c1 c2 c3 c4 c5 c6,
    g = [("from_company_number_intw", c1); ("from_transport_mode_strw", c2);
         ("to_company_number_intw", c3); ("to_transport_mode_strw", c4);
         ("time_to_change_transport_int", c5); ("footnote_number_int", c6)] /\
    IFFXChangesReader.company_text c1 /\ IFFXChangesReader.company_text c3.
Proof.
  unfold Re.rmatch, IFFXChangesReader.XCHANGE_REGEXP. intros H.
  cbn [Re.groupdict] in H.
  destruct row as [|c row]; [discriminate H|].
  destruct (Ascii.eqb c "-"); [|discriminate H].
  apply match_company in H as (c1 & s1 & Hc1 & H).
  destruct s1 as [|x1 s1]; [discriminate H|].
  destruct (Ascii.eqb x1 ","); [|discriminate H].
  apply match_alts_Some in H as (c2 & s2 & H).
  destruct s2 as [|x2 s2]; [discriminate H|].
  destruct (Ascii.eqb x2 ","); [|discriminate H].
  apply match_company in H as (c3 & s3 & Hc3 & H).
  destruct s3 as [|x3 s3]; [discriminate H|].
  destruct (Ascii.eqb x3 ","); [|discriminate H].
  apply match_alts_Some in H as (c4 & s4 & H).
  destruct s4 as [|x4 s4]; [discriminate H|].
  destruct (Ascii.eqb x4 ","); [|discriminate H].
  apply match_alts_Some in H as (c5 & s5 & H).
  destruct s5 as [|x5 s5]; [discriminate H|].
  destruct (Ascii.eqb x5 ","); [|discriminate H].
  apply match_alts_Some in H as (c6 & s6 & H).
  inversion H. exists c1, c2, c3, c4, c5, c6. auto.
Qed.

(** X17: in the record of an x-change line the two company
    numbers are each either the wildcard "*", kept as text, or a number
    from 0 to 999. *)
Theorem xchange_company_is_wildcard_or_number (row : string) (d : dict) :
  IFFReader.parse_row row IFFXChangesReader.XCHANGE_REGEXP = Ok d ->
  forall k, k = "from_company_number" \/ k = "to_company_number" ->
    dict_get k d = Some (VStr "*") \/
    exists n, dict_get k d = Some (VInt n) /\ 0 <= n <= 999.
Proof.
  unfold IFFReader.parse_row. intros H k Hk.
  destruct (Re.rmatch IFFXChangesReader.XCHANGE_REGEXP row) as [g|] eqn:Hg;
    [|discriminate H].
  apply xchange_groups in Hg
    as (c1 & c2 & c3 & c4 & c5 & c6 & -> & Hc1 & Hc3).
  cbn [IFFReader.convert_groups] in H.
  apply outcome_bind_Ok in H as (v1 & Hv1 & H).
  apply outcome_bind_Ok in H as (v2 & _ & H).
  apply outcome_bind_Ok in H as (v3 & Hv3 & H).
  apply outcome_bind_Ok in H as (v4 & _ & H).
  apply outcome_bind_Ok in H as (v5 & _ & H).
  apply outcome_bind_Ok in H as (v6 & _ & H).
  change (IFFReader.convert "intw" (Py.strip c1) = Ok v1) in Hv1.
  change (IFFReader.convert "intw" (Py.strip c3) = Ok v3) in Hv3.
  vm_compute in H. inversion H; subst d. clear H.
  destruct Hk as [-> | ->].
  - change (Some v1 = Some (VStr "*") \/
            exists n, Some v1 = Some (VInt n) /\ 0 <= n <= 999).
    destruct (convert_company c1 Hc1) as [Hs | (n & Hn & Hr)].
    + left. congruence.
    + right. exists n. split; [congruence | exact Hr].
  - change (Some v3 = Some (VStr "*") \/
            exists n, Some v3 = Some (VInt n) /\ 0 <= n <= 999).
    destruct (convert_company c3 Hc3) as [Hs | (n & Hn & Hr)].
    + left. congruence.
    + right. exists n. split; [congruence | exact Hr].
Qed.

Lemma xchange_from_any_company :
  exists d,
    IFFReader.parse_row "-*  ,IC  ,123,S   ,003,00001"
                        IFFXChangesReader.XCHANGE_REGEXP = Ok d /\
    dict_get "from_company_number" d = Some (VStr "*") /\
    dict_get "to_company_number" d = Some (VInt 123).
Proof.
  destruct (IFFReader.parse_row "-*  ,IC  ,123,S   ,003,00001"
                                IFFXChangesReader.XCHANGE_REGEXP)
    as [d| |] eqn:Hd; try (vm_compute in Hd; discriminate Hd).
  exists d. split; [reflexivity|].
  destruct (xchange_company_is_wildcard_or_number _ d Hd
              "from_company_number" (or_introl eq_refl))
    as [Hs | (n & Hn & _)].
  - split; [exact Hs|]. vm_compute in Hd. inversion Hd. reflexivity.
  - vm_compute in Hd. inversion Hd; subst d. discriminate Hn.
Defined.

End XChanges.

Lemma changes_cut_off_inside_the_loop :
  Grouped.tail_loop IFFChangesReader.CHANGE_REGEXP "changes"
    (fun c => Ascii.eqb c "-") 1
    [("station_short_name", VStr "asd"); ("changes", VList [])]
    ("-00000001,00000002,12" ++ Input.nl)
    (Reader [] (Input.lines ["-00000001,00000002,12"]) None None None None) =
  (Ok [("station_short_name", VStr "asd");
       ("changes",
        VList [VDict [("from_service_identification", VInt 1%Z);
                      ("to_service_identification", VInt 2%Z);
                      ("possibility_to_change_trains", VInt 12%Z)]])],
   Input.bare []).
Proof.
  apply (grouped_tail_cut_off IFFChangesReader.CHANGE_REGEXP "changes"
           (fun c => Ascii.eqb c "-") 0 _ _ _
           ("-00000001,00000002,12" ++ Input.nl) "-"%char _ _
           [("from_service_identification", VInt 1%Z);
            ("to_service_identification", VInt 2%Z);
            ("possibility_to_change_trains", VInt 12%Z)]);
    reflexivity.
Defined.
